(** * Kokoro TTS API servers: request handling and audio assembly

    A shallow embedding of the two Flask servers of the repository,
    [app.py] (single voice) and [kakora_server_lock.py] (several accents),
    and the properties of their request handlers.

    The handlers are Python functions that read the parsed request body,
    return early with an error response, call a speech engine, write a
    temporary file and catch every exception at their boundary.  They are
    embedded in a small monad of state, early return and exception. *)

From Stdlib Require Import String Ascii List ZArith NArith QArith_base Bool Lia.
Import ListNotations.

Local Open Scope Z_scope.

(* ================================================================== *)
(** * Python values *)
(* ================================================================== *)

(** A Python [str] is a sequence of Unicode code points; [len] counts
    code points. *)
Definition pystr := list N.

(** The [str] written as an ASCII literal in the source. *)
Definition lit (s : string) : pystr :=
  map N_of_ascii (list_ascii_of_string s).

Fixpoint pystr_eqb (a b : pystr) : bool :=
  match a, b with
  | [], [] => true
  | x :: a', y :: b' => N.eqb x y && pystr_eqb a' b'
  | _, _ => false
  end.

(** Code points removed by [str.strip()] without argument
    (the interpreter's whitespace table). *)
Definition is_space (c : N) : bool :=
  ((9 <=? c) && (c <=? 13) || (28 <=? c) && (c <=? 32)
   || (c =? 133) || (c =? 160) || (c =? 5760)
   || (8192 <=? c) && (c <=? 8202)
   || (c =? 8232) || (c =? 8233) || (c =? 8239) || (c =? 8287)
   || (c =? 12288))%N.

Fixpoint lstrip (s : pystr) : pystr :=
  match s with
  | [] => []
  | c :: s' => if is_space c then lstrip s' else s
  end.

Definition rstrip (s : pystr) : pystr := rev (lstrip (rev s)).

Definition strip (s : pystr) : pystr := rstrip (lstrip s).

Fixpoint startswith (p s : pystr) : bool :=
  match p, s with
  | [], _ => true
  | x :: p', y :: s' => N.eqb x y && startswith p' s'
  | _ :: _, [] => false
  end.

(** [p in s] for two strings: [p] occurs in [s]. *)
Fixpoint substring_in (p s : pystr) : bool :=
  startswith p s ||
  match s with
  | [] => false
  | _ :: s' => substring_in p s'
  end.

(** A parsed JSON number, by its exact value.  The parser of the standard
    library also accepts [NaN] and the two infinities. *)
Inductive number :=
| Fin (q : Q)
| NaN
| Inf (positive : bool).

Definition Qltb (x y : Q) : bool := Qnum x * QDen y <? Qnum y * QDen x.

(** [a < b] on numbers; every comparison with [NaN] is false. *)
Definition num_lt (a b : number) : bool :=
  match a, b with
  | NaN, _ | _, NaN => false
  | Fin x, Fin y => Qltb x y
  | Fin _, Inf p => p
  | Inf p, Fin _ => negb p
  | Inf p, Inf p' => negb p && p'
  end.

Definition num_is_zero (a : number) : bool :=
  match a with
  | Fin q => Qnum q =? 0
  | _ => false
  end.

(** What [request.get_json()] can hand to a handler. *)
#[warnings="-register-all"]
Inductive json :=
| JNull
| JBool (b : bool)
| JNum (n : number)
| JStr (s : pystr)
| JList (l : list json)
| JDict (d : list (pystr * json)).

(** Dictionaries keep insertion order: association lists. *)
Fixpoint lookup {V : Type} (k : pystr) (d : list (pystr * V)) : option V :=
  match d with
  | [] => None
  | (k', v) :: d' => if pystr_eqb k k' then Some v else lookup k d'
  end.

(** [d[k] = v]: the value of an existing key is replaced in place, a new
    key goes to the end. *)
Fixpoint setitem {V : Type} (k : pystr) (v : V) (d : list (pystr * V))
  : list (pystr * V) :=
  match d with
  | [] => [(k, v)]
  | (k', v') :: d' =>
      if pystr_eqb k k' then (k', v) :: d' else (k', v') :: setitem k v d'
  end.

Definition keys {V : Type} (d : list (pystr * V)) : list pystr := map fst d.

Definition is_nil {A : Type} (l : list A) : bool :=
  match l with [] => true | _ => false end.

Definition is_some {A : Type} (o : option A) : bool :=
  match o with Some _ => true | None => false end.

(** Truth value of an object, as [not x] and [if x] take it. *)
Definition truthy (v : json) : bool :=
  match v with
  | JNull => false
  | JBool b => b
  | JNum n => negb (num_is_zero n)
  | JStr s => negb (is_nil s)
  | JList l => negb (is_nil l)
  | JDict d => negb (is_nil d)
  end.

(** Exceptions.  The interpreter's message text is not modelled: an
    exception is kept by its class and the value that caused it. *)
Inductive exn :=
| AttributeError (v : json) (attr : string)
| SetAttributeError (attr : string)
| TypeError (v : json) (operation : string)
| KeyError (k : json)
| Raised (message : pystr).

(** A string built by the program: literal text, formatted values
    ([f'{v}']), the [repr] of a list of keys, [str(e)]. *)
Inductive piece :=
| Lit (s : pystr)
| Fmt (v : json)
| ReprList (ks : list pystr)
| StrExn (e : exn).

Definition fstring := list piece.

Definition msg (s : string) : fstring := [Lit (lit s)].

(** The text of a built string, where it is determined: formatted values
    that are strings, lists of keys that [repr] writes between single
    quotes without escapes. *)
Definition repr_key (k : pystr) : pystr := lit "'" ++ k ++ lit "'".

Fixpoint join (sep : pystr) (l : list pystr) : pystr :=
  match l with
  | [] => []
  | [x] => x
  | x :: l' => x ++ sep ++ join sep l'
  end.

Definition render_piece (p : piece) : option pystr :=
  match p with
  | Lit s => Some s
  | Fmt (JStr s) => Some s
  | ReprList ks => Some (lit "[" ++ join (lit ", ") (map repr_key ks) ++ lit "]")
  | _ => None
  end.

Fixpoint render (f : fstring) : option pystr :=
  match f with
  | [] => Some []
  | p :: f' =>
      match render_piece p, render f' with
      | Some a, Some b => Some (a ++ b)
      | _, _ => None
      end
  end.

(* ================================================================== *)
(** * Audio, engines, responses *)
(* ================================================================== *)

(** One chunk of samples, and the assembled waveform. *)
Definition chunk := list Q.

(** What draining the generator of one engine call gives: every chunk in
    order, or the exception raised on the way. *)
Inductive engine_outcome :=
| Yields (chunks : list chunk)
| Raises (e : exn).

(** A loaded [KPipeline].  The engine is a black box: [run] is what the
    call [pipeline(text, voice=voice, speed=speed)] produces when its
    generator is drained. *)
Record Engine := mkEngine {
  lang_code : pystr;
  repo_id : pystr;
  run : json -> json -> json -> engine_outcome
}.

Record engine_call := mkCall {
  call_engine : Engine;
  call_text : json;
  call_voice : json;
  call_speed : json
}.

(** The bytes [sf.write] produces for samples at a sample rate. *)
Inductive blob := WavOf (samples : chunk) (rate : Z).

(** Values of a response object. *)
Inductive rjson :=
| RJ (j : json)
| RStr (s : fstring)
| RBase64 (b : blob).

Inductive body :=
| Jsonify (fields : list (pystr * rjson))
| SendFile (path : pystr) (mimetype : pystr) (as_attachment : bool)
           (download_name : fstring)
| ServerErrorPage.

Record response := mkResponse { status : Z; content : body }.

(** [jsonify({'error': m}), code] *)
Definition error_response (m : fstring) (code : Z) : response :=
  mkResponse code (Jsonify [(lit "error", RStr m)]).

(* ================================================================== *)
(** * The handler monad *)
(* ================================================================== *)

Inductive json_outcome :=
| JsonRaises (e : exn)
| JsonValue (v : json).

(** What a handler can read and change: the module's global ([G]), the
    parsed body the request object caches, the temporary directory and
    the calls made to engines (latest first). *)
Record world (G : Type) := mkWorld {
  globals : G;
  request_json : json_outcome;
  files : list (pystr * option blob);
  engine_log : list engine_call
}.
Arguments mkWorld {G}.
Arguments globals {G}.
Arguments request_json {G}.
Arguments files {G}.
Arguments engine_log {G}.

(** What the environment decides for one request: the name of the
    temporary file, the random identifier, the clock, and whether
    creating the temporary file, writing it or sending it fails (with
    the exception raised then). *)
Record env := mkEnv {
  tmp_name : pystr;
  uuid_hex : pystr;
  now_iso : pystr;
  tmp_error : option exn;
  write_error : option exn;
  send_error : option exn
}.

Inductive outcome (A : Type) :=
| Value (a : A)
| Return (r : response)
| Raise (e : exn).
Arguments Value {A}.
Arguments Return {A}.
Arguments Raise {A}.

Definition M (G A : Type) := world G -> outcome A * world G.

Definition ret {G A} (a : A) : M G A := fun w => (Value a, w).

Definition bind {G A B} (m : M G A) (k : A -> M G B) : M G B :=
  fun w =>
    match m w with
    | (Value a, w') => k a w'
    | (Return r, w') => (Return r, w')
    | (Raise e, w') => (Raise e, w')
    end.

(** [return r] *)
Definition return_ {G A} (r : response) : M G A := fun w => (Return r, w).

Definition raise {G A} (e : exn) : M G A := fun w => (Raise e, w).

(** [if c: return r] *)
Definition return_if {G} (c : bool) (r : response) : M G unit :=
  if c then return_ r else ret tt.

(** [try: m  except Exception as e: h e] *)
Definition try_except {G A} (m : M G A) (h : exn -> M G A) : M G A :=
  fun w =>
    match m w with
    | (Raise e, w') => h e w'
    | other => other
    end.

(** The value of a call [f()] to another handler. *)
Definition call {G} (f : M G response) : M G response :=
  fun w =>
    match f w with
    | (Return r, w') => (Value r, w')
    | other => other
    end.

Declare Scope handler_scope.
Delimit Scope handler_scope with handler.
Notation "x <- m ;; k" := (bind m (fun x => k))
  (at level 61, m at next level, right associativity) : handler_scope.
Notation "m ;; k" := (bind m (fun _ => k))
  (at level 61, right associativity) : handler_scope.
Local Open Scope handler_scope.

(** What the client gets and the world the request leaves.  An exception
    that leaves a handler is the framework's own error page. *)
Definition serve {G} (h : M G response) (w : world G) : response * world G :=
  match h w with
  | (Value r, w') => (r, w')
  | (Return r, w') => (r, w')
  | (Raise _, w') => (mkResponse 500 ServerErrorPage, w')
  end.

(** ** Operations of the interpreter and the libraries *)

(** [request.get_json()] *)
Definition get_json {G} : M G json :=
  fun w =>
    match request_json w with
    | JsonRaises e => (Raise e, w)
    | JsonValue v => (Value v, w)
    end.

(** [k == x] for a string [k]: only an equal string is equal to it. *)
Definition str_equals (k : pystr) (x : json) : bool :=
  match x with
  | JStr s => pystr_eqb k s
  | _ => false
  end.

(** [k in data]: a key of a dictionary, an element of a list, a substring
    of a string; other values are not containers. *)
Definition py_in {G} (k : pystr) (data : json) : M G bool :=
  match data with
  | JDict d => ret (is_some (lookup k d))
  | JList l => ret (existsb (str_equals k) l)
  | JStr s => ret (substring_in k s)
  | _ => raise (TypeError data "in")
  end.

(** [data[k]] *)
Definition py_getitem {G} (data : json) (k : pystr) : M G json :=
  match data with
  | JDict d =>
      match lookup k d with
      | Some v => ret v
      | None => raise (KeyError (JStr k))
      end
  | _ => raise (TypeError data "getitem")
  end.

(** [d.get(k, default)] on a dictionary. *)
Definition dict_get {V : Type} (d : list (pystr * V)) (k : pystr) (default : V)
  : V :=
  match lookup k d with
  | Some v => v
  | None => default
  end.

(** [data.get(k, default)] *)
Definition py_get {G} (data : json) (k : pystr) (default : json) : M G json :=
  match data with
  | JDict d => ret (dict_get d k default)
  | _ => raise (AttributeError data "get")
  end.

(** [text.strip()] *)
Definition py_strip {G} (text : json) : M G pystr :=
  match text with
  | JStr s => ret (strip s)
  | _ => raise (AttributeError text "strip")
  end.

(** [len(text)] *)
Definition py_len {G} (text : json) : M G Z :=
  match text with
  | JStr s => ret (Z.of_nat (length s))
  | JList l => ret (Z.of_nat (length l))
  | JDict d => ret (Z.of_nat (length d))
  | _ => raise (TypeError text "len")
  end.

(** A value in an order comparison with a float. *)
Definition as_number (v : json) : option number :=
  match v with
  | JNum n => Some n
  | JBool b => Some (Fin (if b then 1 else 0))
  | _ => None
  end.

(** [v < bound] and [v > bound] *)
Definition py_lt {G} (v : json) (bound : Q) : M G bool :=
  match as_number v with
  | Some n => ret (num_lt n (Fin bound))
  | None => raise (TypeError v "<")
  end.

Definition py_gt {G} (v : json) (bound : Q) : M G bool :=
  match as_number v with
  | Some n => ret (num_lt (Fin bound) n)
  | None => raise (TypeError v ">")
  end.

(** Draining [pipeline(text, voice=voice, speed=speed)] into the list
    [audio_segments]. *)
Definition drain {G} (pipeline : Engine) (text voice speed : json)
  : M G (list chunk) :=
  fun w =>
    let w' := mkWorld (globals w) (request_json w) (files w)
                (mkCall pipeline text voice speed :: engine_log w) in
    match run pipeline text voice speed with
    | Yields chunks => (Value chunks, w')
    | Raises e => (Raise e, w')
    end.

(** [final_audio]: the only chunk, or [np.concatenate] of them. *)
Definition final_audio (audio_segments : list chunk) : chunk :=
  if Z.of_nat (length audio_segments) =? 1
  then nth 0 audio_segments []
  else concat audio_segments.

(** [tempfile.NamedTemporaryFile(delete=False, suffix='.wav')]: an empty
    file under a new name, which nothing removes when the handle goes; or
    an exception, and no file. *)
Definition NamedTemporaryFile {G} (e : env) : M G pystr :=
  match tmp_error e with
  | Some ex => raise ex
  | None =>
      fun w =>
        (Value (tmp_name e),
         mkWorld (globals w) (request_json w)
           ((tmp_name e, None) :: files w) (engine_log w))
  end.

(** [sf.write(name, samples, rate)]: the file holds the encoded samples;
    or an exception, and the file stays as it was created, without the
    audio. *)
Definition sf_write {G} (e : env) (name : pystr) (samples : chunk) (rate : Z)
  : M G unit :=
  match write_error e with
  | Some ex => raise ex
  | None =>
      fun w =>
        (Value tt,
         mkWorld (globals w) (request_json w)
           (setitem name (Some (WavOf samples rate)) (files w))
           (engine_log w))
  end.

(** [send_file(path, mimetype=.., as_attachment=.., download_name=..)]:
    the response that will stream the file; or an exception. *)
Definition send_file {G} (e : env) (path mimetype : pystr)
    (as_attachment : bool) (download_name : fstring) : M G response :=
  match send_error e with
  | Some ex => raise ex
  | None =>
      ret (mkResponse 200 (SendFile path mimetype as_attachment download_name))
  end.

(** [uuid.uuid4().hex[:8]] *)
Definition uuid8 (e : env) : pystr := firstn 8 (uuid_hex e).

Definition dquote : pystr := [34%N].

(** [k in d] for a dictionary with string keys: a list or a dictionary
    cannot be hashed, any other value that is not a string equals no key. *)
Definition py_in_dict {G V} (k : json) (d : list (pystr * V)) : M G bool :=
  match k with
  | JStr s => ret (is_some (lookup s d))
  | JList _ | JDict _ => raise (TypeError k "hash")
  | _ => ret false
  end.

(** [d[k]] for a dictionary with string keys. *)
Definition dict_getitem {G V} (d : list (pystr * V)) (k : json) : M G V :=
  match k with
  | JStr s =>
      match lookup s d with
      | Some v => ret v
      | None => raise (KeyError k)
      end
  | JList _ | JDict _ => raise (TypeError k "hash")
  | _ => raise (KeyError k)
  end.

(** A local variable bound to a dictionary: the object the request caches
    (what [request.get_json()] returned), or an object of its own. *)
Inductive ref :=
| CachedBody
| Fresh (v : json).

(** [data[k] = v] through a reference: the object itself changes, so a
    later [request.get_json()] sees the change made to the cached body. *)
Definition py_setitem {G} (data : ref) (k : pystr) (v : json) : M G unit :=
  match data with
  | Fresh _ => ret tt
  | CachedBody =>
      fun w =>
        match request_json w with
        | JsonValue (JDict d) =>
            (Value tt,
             mkWorld (globals w) (JsonValue (JDict (setitem k v d)))
               (files w) (engine_log w))
        | JsonValue x => (Raise (TypeError x "setitem"), w)
        | JsonRaises e => (Raise e, w)
        end
  end.

(** [request.json = data].  The request class declares [json] as a
    property with a getter only, so the assignment raises. *)
Definition set_request_json {G} (data : ref) : M G unit :=
  raise (SetAttributeError "json").

(* ================================================================== *)
(** * kakora_server_lock.py: the server with several accents *)
(* ================================================================== *)

Module KakoraServerLock.

(** The global [pipelines]: accent key to engine, in insertion order. *)
Definition pool := list (pystr * Engine).

Definition get_pipelines : M pool pool := fun w => (Value (globals w), w).

(** [pipelines[accent] = p] *)
Definition set_pipeline (accent : pystr) (p : Engine) : M pool unit :=
  fun w =>
    (Value tt,
     mkWorld (setitem accent p (globals w)) (request_json w) (files w)
       (engine_log w)).

Definition accent_configs : list (pystr * (pystr * pystr)) :=
  [ (lit "british", (lit "b", lit "British English"));
    (lit "american", (lit "a", lit "American English"));
    (lit "spanish", (lit "e", lit "Spanish"));
    (lit "french", (lit "f", lit "French"));
    (lit "italian", (lit "i", lit "Italian")) ].

(** The constructor [KPipeline(lang_code=.., repo_id=..)] loads a model:
    it gives an engine or raises. *)
Definition loader := pystr -> pystr -> Engine + exn.

Definition construct (KPipeline : loader) (lang repo : pystr)
  : M pool Engine :=
  match KPipeline lang repo with
  | inl p => ret p
  | inr e => raise e
  end.

Fixpoint load_each (KPipeline : loader)
    (configs : list (pystr * (pystr * pystr))) : M pool unit :=
  match configs with
  | [] => ret tt
  | (accent, (lang, _)) :: rest =>
      try_except
        (p <- construct KPipeline lang (lit "hexgrad/Kokoro-82M") ;;
         set_pipeline accent p)
        (fun _ => ret tt) ;;
      load_each KPipeline rest
  end.

Definition initialize_pipelines (KPipeline : loader) : M pool unit :=
  load_each KPipeline accent_configs.

Definition health_check (e : env) : M pool response :=
  pipelines <- get_pipelines ;;
  return_ (mkResponse 200 (Jsonify
    [ (lit "status", RJ (JStr (lit "healthy")));
      (lit "model", RJ (JStr (lit "Kokoro-82M")));
      (lit "device", RJ (JStr (lit "CPU")));
      (lit "available_accents", RJ (JList (map JStr (keys pipelines))));
      (lit "timestamp", RJ (JStr (now_iso e))) ])).

Definition accent_info : list (pystr * json) :=
  map (fun c => match c with
                | (accent, (lang, name)) =>
                    (accent, JDict [(lit "name", JStr name);
                                    (lit "lang_code", JStr lang)])
                end) accent_configs.

Definition get_accents (e : env) : M pool response :=
  pipelines <- get_pipelines ;;
  let available_accents :=
    fold_left (fun acc accent =>
                 match lookup accent accent_info with
                 | Some info => setitem accent info acc
                 | None => acc
                 end) (keys pipelines) [] in
  return_ (mkResponse 200 (Jsonify
    [ (lit "accents", RJ (JDict available_accents));
      (lit "default", RJ (JStr (lit "british"))) ])).

Definition voices : list (pystr * json) :=
  [ (lit "female", JList (map (fun s => JStr (lit s))
       ["af_heart"; "af_allison"; "af_monica"; "af_sara"]%string));
    (lit "male", JList (map (fun s => JStr (lit s))
       ["am_aaron"; "am_eddie"; "am_harold"; "am_louis"; "am_mike"]%string));
    (lit "other", JList [JStr (lit "af_andrew")]) ].

Definition get_voices (e : env) : M pool response :=
  return_ (mkResponse 200 (Jsonify
    [ (lit "voices", RJ (JDict voices));
      (lit "default", RJ (JStr (lit "af_allison")));
      (lit "note", RJ (JStr (lit "All voices work with all accents"))) ])).

(** [not data or 'text' not in data] *)
Definition text_missing (data : json) : M pool bool :=
  if negb (truthy data) then ret true
  else (present <- py_in (lit "text") data ;; ret (negb present)).

Definition text_to_speech (e : env) : M pool response :=
  try_except
    (data <- get_json ;;
     missing <- text_missing data ;;
     return_if missing (error_response (msg "Missing text parameter") 400) ;;
     text <- py_getitem data (lit "text") ;;
     accent <- py_get data (lit "accent") (JStr (lit "british")) ;;
     voice <- py_get data (lit "voice") (JStr (lit "af_heart")) ;;
     speed <- py_get data (lit "speed") (JNum (Fin 1)) ;;
     stripped <- py_strip text ;;
     return_if (is_nil stripped)
       (error_response (msg "Text cannot be empty") 400) ;;
     n <- py_len text ;;
     return_if (5000 <? n)
       (error_response (msg "Text too long (max 5000 characters)") 400) ;;
     pipelines <- get_pipelines ;;
     known <- py_in_dict accent pipelines ;;
     return_if (negb known)
       (error_response
          [ Lit (lit "Accent " ++ dquote); Fmt accent;
            Lit (dquote ++ lit " not available. Available: ");
            ReprList (keys pipelines) ] 400) ;;
     pipeline <- dict_getitem pipelines accent ;;
     audio_segments <- drain pipeline text voice speed ;;
     return_if (is_nil audio_segments)
       (error_response (msg "No audio generated") 500) ;;
     temp_file <- NamedTemporaryFile e ;;
     sf_write e temp_file (final_audio audio_segments) 24000 ;;
     sent <- send_file e temp_file (lit "audio/wav") true
               [ Lit (lit "kokoro_"); Fmt accent; Lit (lit "_");
                 Lit (uuid8 e); Lit (lit ".wav") ] ;;
     return_ sent)
    (fun ex => return_ (error_response [StrExn ex] 500)).

Definition british_tts (e : env) : M pool response :=
  try_except
    (body <- get_json ;;
     let data := if negb (truthy body) then Fresh (JDict []) else CachedBody in
     py_setitem data (lit "accent") (JStr (lit "british")) ;;
     set_request_json data ;;
     r <- call (text_to_speech e) ;;
     return_ r)
    (fun ex => return_ (error_response [StrExn ex] 500)).

Definition text_to_speech_base64 (e : env) : M pool response :=
  try_except
    (data <- get_json ;;
     missing <- text_missing data ;;
     return_if missing (error_response (msg "Missing text parameter") 400) ;;
     text <- py_getitem data (lit "text") ;;
     accent <- py_get data (lit "accent") (JStr (lit "british")) ;;
     voice <- py_get data (lit "voice") (JStr (lit "af_heart")) ;;
     speed <- py_get data (lit "speed") (JNum (Fin 1)) ;;
     stripped <- py_strip text ;;
     return_if (is_nil stripped)
       (error_response (msg "Text cannot be empty") 400) ;;
     pipelines <- get_pipelines ;;
     known <- py_in_dict accent pipelines ;;
     return_if (negb known)
       (error_response
          [ Lit (lit "Accent " ++ dquote); Fmt accent;
            Lit (dquote ++ lit " not available") ] 400) ;;
     pipeline <- dict_getitem pipelines accent ;;
     audio_segments <- drain pipeline text voice speed ;;
     return_if (is_nil audio_segments)
       (error_response (msg "No audio generated") 500) ;;
     return_ (mkResponse 200 (Jsonify
       [ (lit "audio_base64",
          RBase64 (WavOf (final_audio audio_segments) 24000));
         (lit "accent", RJ accent);
         (lit "voice", RJ voice);
         (lit "speed", RJ speed);
         (lit "sample_rate", RJ (JNum (Fin 24000)));
         (lit "format", RJ (JStr (lit "wav"))) ])))
    (fun ex => return_ (error_response [StrExn ex] 500)).

End KakoraServerLock.

(* ================================================================== *)
(** * app.py: the server with one voice *)
(* ================================================================== *)

Module App.

(** The global [pipeline]: [None] until the engine is loaded. *)
Definition slot := option Engine.

Definition VOICE : pystr := lit "af_heart".

Definition get_pipeline : M slot slot := fun w => (Value (globals w), w).

Definition set_pipeline (p : Engine) : M slot unit :=
  fun w =>
    (Value tt, mkWorld (Some p) (request_json w) (files w) (engine_log w)).

Definition loader := pystr -> pystr -> Engine + exn.

Definition construct (KPipeline : loader) (lang repo : pystr)
  : M slot Engine :=
  match KPipeline lang repo with
  | inl p => ret p
  | inr e => raise e
  end.


Definition health_check (e : env) : M slot response :=
  pipeline <- get_pipeline ;;
  return_ (mkResponse 200 (Jsonify
    [ (lit "status",
       RJ (JStr (if is_some pipeline then lit "healthy" else lit "error")));
      (lit "model", RJ (JStr (lit "Kokoro-82M")));
      (lit "voice", RJ (JStr VOICE));
      (lit "accent", RJ (JStr (lit "british")));
      (lit "device", RJ (JStr (lit "CPU")));
      (lit "timestamp", RJ (JStr (now_iso e))) ])).

Definition get_voice_info (e : env) : M slot response :=
  return_ (mkResponse 200 (Jsonify
    [ (lit "voice", RJ (JStr VOICE));
      (lit "name", RJ (JStr (lit "Heart (Female)")));
      (lit "accent", RJ (JStr (lit "british")));
      (lit "language", RJ (JStr (lit "English (British)")));
      (lit "type", RJ (JStr (lit "female"))) ])).

(** [not data or 'text' not in data] *)
Definition text_missing (data : json) : M slot bool :=
  if negb (truthy data) then ret true
  else (present <- py_in (lit "text") data ;; ret (negb present)).

(** [speed < 0.5 or speed > 2.0] *)
Definition speed_out_of_range (speed : json) : M slot bool :=
  low <- py_lt speed (1 # 2) ;;
  if low then ret true else py_gt speed 2.

Definition text_to_speech (e : env) : M slot response :=
  try_except
    (pipeline <- get_pipeline ;;
     match pipeline with
     | None => return_ (error_response (msg "TTS pipeline not initialized") 500)
     | Some pipeline =>
         data <- get_json ;;
         missing <- text_missing data ;;
         return_if missing
           (error_response (msg "Missing text parameter") 400) ;;
         text <- py_getitem data (lit "text") ;;
         speed <- py_get data (lit "speed") (JNum (Fin 1)) ;;
         stripped <- py_strip text ;;
         return_if (is_nil stripped)
           (error_response (msg "Text cannot be empty") 400) ;;
         n <- py_len text ;;
         return_if (5000 <? n)
           (error_response (msg "Text too long (max 5000 characters)") 400) ;;
         bad_speed <- speed_out_of_range speed ;;
         return_if bad_speed
           (error_response (msg "Speed must be between 0.5 and 2.0") 400) ;;
         audio_segments <- drain pipeline text (JStr VOICE) speed ;;
         return_if (is_nil audio_segments)
           (error_response (msg "No audio generated") 500) ;;
         temp_file <- NamedTemporaryFile e ;;
         sf_write e temp_file (final_audio audio_segments) 24000 ;;
         sent <- send_file e temp_file (lit "audio/wav") true
                   [ Lit (lit "kokoro_"); Lit VOICE; Lit (lit "_");
                     Lit (uuid8 e); Lit (lit ".wav") ] ;;
         return_ sent
     end)
    (fun ex => return_ (error_response [StrExn ex] 500)).

End App.


(* ================================================================== *)
(** * The HTTP layer after the handler *)
(* ================================================================== *)

(** Once a handler has returned, the framework sends the response.  For a
    file response it opens the named file, streams its bytes and closes
    its handle; the file itself stays where it is. *)
Definition stream {G} (r : response) (w : world G)
  : option blob * world G :=
  match content r with
  | SendFile path _ _ _ => (dict_get (files w) path None, w)
  | _ => (None, w)
  end.

(** One request from the first line of the handler to the last byte
    sent: the response, the bytes streamed from disk and the world that
    is left. *)
Definition request_cycle {G} (h : M G response) (w : world G)
  : response * option blob * world G :=
  let (r, w1) := serve h w in
  let (sent, w2) := stream r w1 in
  (r, sent, w2).

(* ================================================================== *)
(** * Vocabulary of the statements *)
(* ================================================================== *)

(** The world after one more engine call. *)
Definition log_call {G} (c : engine_call) (w : world G) : world G :=
  mkWorld (globals w) (request_json w) (files w) (c :: engine_log w).

(** The world after a file has been created, with what it holds. *)
Definition leave_file {G} (name : pystr) (holds : option blob) (w : world G)
  : world G :=
  mkWorld (globals w) (request_json w) ((name, holds) :: files w)
    (engine_log w).

(** The world after a file has been created and written. *)
Definition keep_file {G} (name : pystr) (b : blob) (w : world G) : world G :=
  leave_file name (Some b) w.

(** The file response of [/tts]. *)
Definition wav_attachment (e : env) (label : piece) : response :=
  mkResponse 200
    (SendFile (tmp_name e) (lit "audio/wav") true
       [ Lit (lit "kokoro_"); label; Lit (lit "_");
         Lit (uuid8 e); Lit (lit ".wav") ]).

(** The JSON response of [/tts_base64]. *)
Definition base64_reply (audio : chunk) (accent voice speed : json)
  : response :=
  mkResponse 200 (Jsonify
    [ (lit "audio_base64", RBase64 (WavOf audio 24000));
      (lit "accent", RJ accent);
      (lit "voice", RJ voice);
      (lit "speed", RJ speed);
      (lit "sample_rate", RJ (JNum (Fin 24000)));
      (lit "format", RJ (JStr (lit "wav"))) ]).

(** What a request that reached the engine ends in, from the call [c]
    that was made: the engine's exception as a 500, no chunk at all as
    the 500 of [No audio generated], and otherwise the response [sent]
    builds from the assembled audio. *)
Definition after_engine {G} (c : engine_call)
    (sent : chunk -> response * (world G -> world G))
    (w : world G) (r : response) (w' : world G) : Prop :=
  match run (call_engine c) (call_text c) (call_voice c) (call_speed c) with
  | Raises ex => r = error_response [StrExn ex] 500 /\ w' = log_call c w
  | Yields [] =>
      r = error_response (msg "No audio generated") 500 /\ w' = log_call c w
  | Yields segs =>
      r = fst (sent (final_audio segs)) /\
      w' = snd (sent (final_audio segs)) (log_call c w)
  end.

(** How [/tts] answers with audio: the file is created, written and
    named in the response.  When one of the three steps raises, the
    answer is the 500 of that exception, and the file is there from the
    moment it was created: empty when the write failed, written when the
    sending failed. *)
Definition sent_as_file {G} (e : env) (label : piece) (audio : chunk)
  : response * (world G -> world G) :=
  match tmp_error e with
  | Some ex => (error_response [StrExn ex] 500, fun w => w)
  | None =>
      match write_error e with
      | Some ex =>
          (error_response [StrExn ex] 500, leave_file (tmp_name e) None)
      | None =>
          match send_error e with
          | Some ex =>
              (error_response [StrExn ex] 500,
               keep_file (tmp_name e) (WavOf audio 24000))
          | None =>
              (wav_attachment e label,
               keep_file (tmp_name e) (WavOf audio 24000))
          end
      end
  end.

(** How [/tts_base64] answers with audio: nothing but the response. *)
Definition sent_as_base64 {G} (accent voice speed : json) (audio : chunk)
  : response * (world G -> world G) :=
  (base64_reply audio accent voice speed, fun w => w).

(** The fields of a request body, with the defaults of the multi-voice
    handlers. *)
Definition accent_of (d : list (pystr * json)) : json :=
  dict_get d (lit "accent") (JStr (lit "british")).
Definition voice_of (d : list (pystr * json)) : json :=
  dict_get d (lit "voice") (JStr (lit "af_heart")).
Definition speed_of (d : list (pystr * json)) : json :=
  dict_get d (lit "speed") (JNum (Fin 1)).

(** The error responses by name. *)
Definition MissingField : response :=
  error_response (msg "Missing text parameter") 400.
Definition EmptyText : response :=
  error_response (msg "Text cannot be empty") 400.
Definition TextTooLong : response :=
  error_response (msg "Text too long (max 5000 characters)") 400.
Definition SpeedOutOfRange : response :=
  error_response (msg "Speed must be between 0.5 and 2.0") 400.
Definition NoAudioGenerated : response :=
  error_response (msg "No audio generated") 500.
Definition PipelineNotInitialized : response :=
  error_response (msg "TTS pipeline not initialized") 500.
Definition UnknownAccentListing (accent : json) (available : list pystr)
  : response :=
  error_response
    [ Lit (lit "Accent " ++ dquote); Fmt accent;
      Lit (dquote ++ lit " not available. Available: ");
      ReprList available ] 400.

(** [speed < 0.5 or speed > 2.0] on a number. *)
Definition out_of_range (n : number) : bool :=
  num_lt n (Fin (1 # 2)) || num_lt (Fin 2) n.

(** The text of the error message of a response, where it has one. *)
Definition error_text (r : response) : option pystr :=
  match content r with
  | Jsonify [(_, RStr m)] => render m
  | _ => None
  end.

(* ================================================================== *)
(** * Sample engines and requests *)
(* ================================================================== *)

(** An engine that speaks two chunks whatever it is asked. *)
Definition two_chunk_engine : Engine :=
  mkEngine (lit "b") (lit "hexgrad/Kokoro-82M")
    (fun _ _ _ => Yields [[1 # 2; 1 # 4]; [0 # 1; 3 # 4]]).

(** An engine whose generator ends at once. *)
Definition silent_engine : Engine :=
  mkEngine (lit "b") (lit "hexgrad/Kokoro-82M") (fun _ _ _ => Yields []).

Definition sample_env : env :=
  mkEnv (lit "/tmp/tmpk3x9q2.wav") (lit "9f86d081884c7d659a2feaa0c55ad015")
    (lit "2025-01-01T12:00:00") None None None.

(** The same request on a full disk: the file is created, the write
    fails. *)
Definition full_disk_env : env :=
  mkEnv (lit "/tmp/tmpk3x9q2.wav") (lit "9f86d081884c7d659a2feaa0c55ad015")
    (lit "2025-01-01T12:00:00") None
    (Some (Raised (lit "No space left on device"))) None.

(** The multi-voice server with only the British engine loaded. *)
Definition british_only (p : Engine) (body : json)
  : world KakoraServerLock.pool :=
  mkWorld [(lit "british", p)] (JsonValue body) [] [].

(** The single-voice server with its engine loaded. *)
Definition single_voice (p : Engine) (body : json) : world App.slot :=
  mkWorld (Some p) (JsonValue body) [] [].

Definition hello : json := JStr (lit "Hello world").

Definition body_hello : json := JDict [(lit "text", hello)].

Definition body_with_speed (q : Q) : json :=
  JDict [(lit "text", hello); (lit "speed", JNum (Fin q))].

Definition body_klingon : json :=
  JDict [(lit "text", hello); (lit "accent", JStr (lit "klingon"))].

Definition body_klingon_fast : json :=
  JDict [(lit "text", hello); (lit "speed", JNum (Fin 9));
         (lit "accent", JStr (lit "klingon"))].

Definition body_blank : json :=
  JDict [(lit "text", JStr (lit "   "));
         (lit "accent", JStr (lit "klingon"))].

Definition body_no_text : json :=
  JDict [(lit "accent", JStr (lit "klingon"))].

(** 5001 letters, 5000 letters. *)
Definition long_text : pystr := repeat 97%N (Z.to_nat 5001).
Definition longest_text : pystr := repeat 97%N (Z.to_nat 5000).

Definition body_of_text (s : pystr) : json := JDict [(lit "text", JStr s)].

(* ================================================================== *)
(** * Start-up and the routing table of kakora_server_lock.py *)
(* ================================================================== *)

(** The configured accents the constructor gives an engine for, with that
    engine, in the order of the configuration. *)
Definition loaded_accents (KPipeline : KakoraServerLock.loader)
  : KakoraServerLock.pool :=
  flat_map
    (fun c =>
       match c with
       | (accent, (lang, _)) =>
           match KPipeline lang (lit "hexgrad/Kokoro-82M") with
           | inl p => [(accent, p)]
           | inr _ => []
           end
       end)
    KakoraServerLock.accent_configs.

(** The routes the [@app.route] lines declare, the demo page apart. *)
Inductive route := Health | Accents | Voices | Tts | TtsBritish | TtsBase64.

Definition dispatch (r : route) : env -> M KakoraServerLock.pool response :=
  match r with
  | Health => KakoraServerLock.health_check
  | Accents => KakoraServerLock.get_accents
  | Voices => KakoraServerLock.get_voices
  | Tts => KakoraServerLock.text_to_speech
  | TtsBritish => KakoraServerLock.british_tts
  | TtsBase64 => KakoraServerLock.text_to_speech_base64
  end.

(** One request as the server receives it: the route, what the
    environment decides for it and what parsing its body gives. *)
Record request := mkRequest {
  req_route : route;
  req_env : env;
  req_body : json_outcome
}.

(** A new request object, with its own body, in the world the requests
    before have left. *)
Definition receive {G} (body : json_outcome) (w : world G) : world G :=
  mkWorld (globals w) body (files w) (engine_log w).

Definition serve_request (q : request) (w : world KakoraServerLock.pool)
  : response * world KakoraServerLock.pool :=
  serve (dispatch (req_route q) (req_env q)) (receive (req_body q) w).

(** The requests of a list served one after the other. *)
Fixpoint serve_all (qs : list request) (w : world KakoraServerLock.pool)
  : list response * world KakoraServerLock.pool :=
  match qs with
  | [] => ([], w)
  | q :: qs' =>
      let (r, w1) := serve_request q w in
      let (rs, w2) := serve_all qs' w1 in
      (r :: rs, w2)
  end.

(** The text of the download name of a file response. *)
Definition download_text (r : response) : option pystr :=
  match content r with
  | SendFile _ _ _ name => render name
  | _ => None
  end.

(** A field of a JSON response. *)
Definition field (k : string) (r : response) : option rjson :=
  match content r with
  | Jsonify fields => lookup (lit k) fields
  | _ => None
  end.

(** What the handlers answer to a body that is true and not an object:
    a number or [true] cannot be searched for a key, a list or a string
    that holds ['text'] cannot be indexed by it, and one that does not is
    a body without text. *)
Definition non_object_reply (data : json) : response :=
  match data with
  | JList l =>
      if existsb (str_equals (lit "text")) l
      then error_response [StrExn (TypeError data "getitem")] 500
      else MissingField
  | JStr s =>
      if substring_in (lit "text") s
      then error_response [StrExn (TypeError data "getitem")] 500
      else MissingField
  | _ => error_response [StrExn (TypeError data "in")] 500
  end.

Definition is_object (data : json) : bool :=
  match data with JDict _ => true | _ => false end.

Definition is_string (v : json) : bool :=
  match v with JStr _ => true | _ => false end.

(** A constructor that only has the British model, and one that has
    none. *)
Definition british_loads : KakoraServerLock.loader :=
  fun lang _ =>
    if pystr_eqb lang (lit "b") then inl two_chunk_engine
    else inr (Raised (lit "no model for this language")).

Definition nothing_loads : KakoraServerLock.loader :=
  fun _ _ => inr (Raised (lit "no model for this language")).

(** The multi-voice module as imported: [pipelines = {}]. *)
Definition startup : world KakoraServerLock.pool :=
  mkWorld [] (JsonValue JNull) [] [].


(** A request answered with a file: a [/tts] request answered 200. *)
Definition is_download (q : request) (r : response) : bool :=
  match req_route q with
  | Tts => status r =? 200
  | _ => false
  end.


(** The requests to [/tts] among [qs]. *)
Definition is_tts (q : request) : bool :=
  match req_route q with
  | Tts => true
  | _ => false
  end.


(** For this request neither [sf.write] nor [send_file] raises. *)
Definition disk_works (q : request) : Prop :=
  write_error (req_env q) = None /\ send_error (req_env q) = None.

(** Lists and objects cannot be keys; [null], truth values and numbers
    can, and are no strings. *)
Definition is_container (v : json) : bool :=
  match v with JList _ | JDict _ => true | _ => false end.

Definition is_scalar_not_string (v : json) : bool :=
  match v with JNull | JBool _ | JNum _ => true | _ => false end.

(* ================================================================== *)
(** * Strings and dictionaries *)
(* ================================================================== *)

Lemma pystr_eqb_refl (s : pystr) : pystr_eqb s s = true.
Proof.
  induction s as [|c s IH]; simpl; [reflexivity|].
  now rewrite N.eqb_refl.
Qed.

Lemma pystr_eqb_eq (a b : pystr) : pystr_eqb a b = true <-> a = b.
Proof.
  split.
  - revert b. induction a as [|x a IH]; intros [|y b]; simpl;
      try discriminate; [reflexivity|].
    intros H. apply andb_prop in H as [Hx Hab].
    apply N.eqb_eq in Hx. subst y. f_equal. now apply IH.
  - intros ->. apply pystr_eqb_refl.
Qed.

Lemma is_nil_true {A : Type} (l : list A) : is_nil l = true <-> l = [].
Proof. destruct l; simpl; split; intros H; try reflexivity; discriminate. Qed.

Lemma is_nil_false {A : Type} (l : list A) : is_nil l = false <-> l <> [].
Proof.
  destruct l; simpl; split; intros H; try reflexivity; try discriminate.
  now contradiction H.
Qed.

Lemma lstrip_nil (s : pystr) : lstrip s = [] <-> forallb is_space s = true.
Proof.
  induction s as [|c s IH]; simpl; [tauto|].
  destruct (is_space c); simpl; [exact IH|].
  split; discriminate.
Qed.

(** What [lstrip] leaves does not start with white space. *)
Lemma lstrip_head (s : pystr) :
  match lstrip s with
  | [] => True
  | c :: _ => is_space c = false
  end.
Proof.
  induction s as [|c s IH]; simpl; [exact I|].
  destruct (is_space c) eqn:E; [exact IH | exact E].
Qed.

Lemma forallb_rev {A : Type} (f : A -> bool) (l : list A) :
  forallb f (rev l) = forallb f l.
Proof.
  induction l as [|x l IH]; simpl; [reflexivity|].
  rewrite forallb_app, IH. simpl. rewrite andb_true_r. apply andb_comm.
Qed.

(** [not text.strip()] holds exactly for the empty string and the strings
    of white space only. *)
Lemma strip_nil_iff (s : pystr) : strip s = [] <-> forallb is_space s = true.
Proof.
  unfold strip, rstrip. split.
  - intros H.
    assert (H1 : lstrip (rev (lstrip s)) = []).
    { destruct (lstrip (rev (lstrip s))) as [|c t]; [reflexivity|].
      simpl in H. now destruct (rev t). }
    apply lstrip_nil in H1. rewrite forallb_rev in H1.
    pose proof (lstrip_head s) as Hh.
    destruct (lstrip s) as [|c t] eqn:E.
    + now apply lstrip_nil.
    + simpl in H1. rewrite Hh in H1. discriminate.
  - intros H. apply lstrip_nil in H. now rewrite H.
Qed.

Lemma lookup_setitem_same {V : Type} (k : pystr) (v : V) d :
  lookup k (setitem k v d) = Some v.
Proof.
  induction d as [|[k' v'] d IH]; simpl.
  - now rewrite pystr_eqb_refl.
  - destruct (pystr_eqb k k') eqn:E; simpl; rewrite E; [reflexivity | exact IH].
Qed.

Lemma lookup_setitem_other {V : Type} (k k' : pystr) (v : V) d :
  pystr_eqb k' k = false -> lookup k' (setitem k v d) = lookup k' d.
Proof.
  intros Hk. induction d as [|[k0 v0] d IH]; simpl.
  - now rewrite Hk.
  - destruct (pystr_eqb k k0) eqn:E; simpl.
    + apply pystr_eqb_eq in E. subst k0. now rewrite Hk.
    + now rewrite IH.
Qed.

Lemma setitem_head {V : Type} (k : pystr) (v v0 : V) d :
  setitem k v ((k, v0) :: d) = (k, v) :: d.
Proof. simpl. now rewrite pystr_eqb_refl. Qed.

Lemma list_neq_cons {A : Type} (x : A) (l : list A) : l <> x :: l.
Proof.
  intros H. apply (f_equal (@length A)) in H. simpl in H. lia.
Qed.

(* ================================================================== *)
(** * Running a handler *)
(* ================================================================== *)

(** Unfolds the monad and the interpreter's operations, not the
    functions on strings and dictionaries. *)
Ltac unfold_ops :=
  cbv beta iota zeta delta
    [serve try_except bind ret return_ raise return_if call get_json
     py_in py_getitem py_get py_strip py_len py_lt py_gt py_in_dict
     dict_getitem drain NamedTemporaryFile sf_write send_file
     set_request_json
     py_setitem truthy negb is_some
     KakoraServerLock.get_pipelines KakoraServerLock.text_missing
     App.get_pipeline App.text_missing App.speed_out_of_range
     globals request_json files engine_log leave_file keep_file].

Ltac unfold_ops_in H :=
  cbv beta iota zeta delta
    [serve try_except bind ret return_ raise return_if call get_json
     py_in py_getitem py_get py_strip py_len py_lt py_gt py_in_dict
     dict_getitem drain NamedTemporaryFile sf_write send_file
     set_request_json
     py_setitem truthy negb is_some
     KakoraServerLock.get_pipelines KakoraServerLock.text_missing
     App.get_pipeline App.text_missing App.speed_out_of_range
     globals request_json files engine_log leave_file keep_file] in H.

(** One step along a path the hypotheses determine. *)
Ltac follow :=
  unfold_ops;
  repeat (match goal with
          | H : ?x = _ |- context [match ?x with _ => _ end] => rewrite H
          | |- context [pystr_eqb ?x ?x] => rewrite (pystr_eqb_refl x)
          | |- context [setitem ?k _ ((?k, _) :: _)] => rewrite setitem_head
          end; unfold_ops).

(** Case analysis on the innermost test a run is stuck on. *)
Ltac break_in H :=
  match type of H with
  | context [match ?x with _ => _ end] =>
      match x with
      | context [match _ with _ => _ end] => fail 1
      | _ => destruct x eqn:?
      end
  end.

Ltac explore H :=
  unfold_ops_in H;
  repeat (first [ rewrite pystr_eqb_refl in H
                | rewrite setitem_head in H
                | break_in H ]; unfold_ops_in H).

(** The facts a path is stated with, in the form the code tests them. *)
Lemma not_blank_test (s : pystr) : strip s <> [] -> is_nil (strip s) = false.
Proof. apply is_nil_false. Qed.

Lemma blank_test (s : pystr) : strip s = [] -> is_nil (strip s) = true.
Proof. apply is_nil_true. Qed.

Lemma length_test (s : pystr) :
  Z.of_nat (length s) <= 5000 -> (5000 <? Z.of_nat (length s)) = false.
Proof. intros H. now apply Z.ltb_ge. Qed.

Lemma too_long_test (s : pystr) :
  5000 < Z.of_nat (length s) -> (5000 <? Z.of_nat (length s)) = true.
Proof. intros H. now apply Z.ltb_lt. Qed.

Lemma has_text_not_empty {V : Type} (d : list (pystr * V)) k v :
  lookup k d = Some v -> is_nil d = false.
Proof. destruct d; [discriminate | reflexivity]. Qed.

(* ================================================================== *)
(** * kakora_server_lock.py, POST /tts: the paths *)
(* ================================================================== *)

Section MultiVoiceTts.

Import KakoraServerLock.

Variable e : env.
Variable w : world pool.

Lemma ksl_tts_json_raises ex :
  request_json w = JsonRaises ex ->
  serve (text_to_speech e) w = (error_response [StrExn ex] 500, w).
Proof.
  intros Hj. destruct w as [g rj fs lg]. simpl in Hj. subst rj.
  reflexivity.
Qed.

Lemma ksl_tts_falsy data :
  request_json w = JsonValue data -> truthy data = false ->
  serve (text_to_speech e) w = (MissingField, w).
Proof.
  intros Hj Hf. destruct w as [g rj fs lg]. simpl in Hj. subst rj.
  unfold text_to_speech, text_missing, serve, try_except, bind, get_json.
  cbn [request_json]. rewrite Hf. reflexivity.
Qed.

Variable d : list (pystr * json).
Hypothesis Hbody : request_json w = JsonValue (JDict d).

Lemma ksl_tts_no_text :
  lookup (lit "text") d = None ->
  serve (text_to_speech e) w = (MissingField, w).
Proof.
  intros Ht. destruct w as [g rj fs lg]. simpl in Hbody. subst rj.
  unfold text_to_speech. destruct (is_nil d) eqn:Hd; follow; reflexivity.
Qed.

Variable s : pystr.
Hypothesis Htext : lookup (lit "text") d = Some (JStr s).

Lemma ksl_tts_blank :
  strip s = [] ->
  serve (text_to_speech e) w = (EmptyText, w).
Proof.
  intros Hs%blank_test. pose proof (has_text_not_empty _ _ _ Htext) as Hd.
  destruct w as [g rj fs lg]. simpl in Hbody. subst rj.
  unfold text_to_speech. follow. reflexivity.
Qed.

Hypothesis Hsaid : strip s <> [].

Lemma ksl_tts_too_long :
  5000 < Z.of_nat (length s) ->
  serve (text_to_speech e) w = (TextTooLong, w).
Proof.
  intros Hl%too_long_test. pose proof (has_text_not_empty _ _ _ Htext) as Hd.
  pose proof (not_blank_test _ Hsaid) as Hs.
  destruct w as [g rj fs lg]. simpl in Hbody. subst rj.
  unfold text_to_speech. follow. reflexivity.
Qed.

Hypothesis Hlen : Z.of_nat (length s) <= 5000.

Variable a : pystr.
Hypothesis Haccent : accent_of d = JStr a.

Lemma ksl_tts_unknown_accent :
  lookup a (globals w) = None ->
  serve (text_to_speech e) w =
    (UnknownAccentListing (JStr a) (keys (globals w)), w).
Proof.
  intros Hp. pose proof (has_text_not_empty _ _ _ Htext) as Hd.
  pose proof (not_blank_test _ Hsaid) as Hs.
  pose proof (length_test _ Hlen) as Hl.
  destruct w as [g rj fs lg]. simpl in Hbody, Hp. subst rj.
  unfold accent_of in Haccent.
  unfold text_to_speech. follow. reflexivity.
Qed.

Lemma ksl_tts_accepted p :
  lookup a (globals w) = Some p ->
  after_engine (mkCall p (JStr s) (voice_of d) (speed_of d))
    (sent_as_file e (Fmt (JStr a))) w
    (fst (serve (text_to_speech e) w)) (snd (serve (text_to_speech e) w)).
Proof.
  intros Hp. pose proof (has_text_not_empty _ _ _ Htext) as Hd.
  pose proof (not_blank_test _ Hsaid) as Hs.
  pose proof (length_test _ Hlen) as Hl.
  destruct w as [g rj fs lg]. simpl in Hbody, Hp. subst rj.
  unfold accent_of in Haccent.
  unfold after_engine, voice_of, speed_of.
  cbn [call_engine call_text call_voice call_speed].
  unfold text_to_speech. follow.
  destruct (run p _ _ _) as [[|c segs]|ex]; cbn [is_nil]; follow;
    try (split; reflexivity).
  unfold sent_as_file.
  destruct (tmp_error e), (write_error e), (send_error e); follow;
    split; reflexivity.
Qed.

End MultiVoiceTts.

(* ================================================================== *)
(** * kakora_server_lock.py, POST /tts_base64: the paths *)
(* ================================================================== *)

Section MultiVoiceBase64.

Import KakoraServerLock.

Variable e : env.
Variable w : world pool.

Lemma ksl_b64_falsy data :
  request_json w = JsonValue data -> truthy data = false ->
  serve (text_to_speech_base64 e) w = (MissingField, w).
Proof.
  intros Hj Hf. destruct w as [g rj fs lg]. simpl in Hj. subst rj.
  unfold text_to_speech_base64, text_missing, serve, try_except, bind,
    get_json.
  cbn [request_json]. rewrite Hf. reflexivity.
Qed.

Variable d : list (pystr * json).
Hypothesis Hbody : request_json w = JsonValue (JDict d).

Lemma ksl_b64_no_text :
  lookup (lit "text") d = None ->
  serve (text_to_speech_base64 e) w = (MissingField, w).
Proof.
  intros Ht. destruct w as [g rj fs lg]. simpl in Hbody. subst rj.
  unfold text_to_speech_base64. destruct (is_nil d) eqn:Hd; follow;
    reflexivity.
Qed.

Variable s : pystr.
Hypothesis Htext : lookup (lit "text") d = Some (JStr s).

Lemma ksl_b64_blank :
  strip s = [] ->
  serve (text_to_speech_base64 e) w = (EmptyText, w).
Proof.
  intros Hs%blank_test. pose proof (has_text_not_empty _ _ _ Htext) as Hd.
  destruct w as [g rj fs lg]. simpl in Hbody. subst rj.
  unfold text_to_speech_base64. follow. reflexivity.
Qed.

Hypothesis Hsaid : strip s <> [].

Variable a : pystr.
Hypothesis Haccent : accent_of d = JStr a.

Lemma ksl_b64_unknown_accent :
  lookup a (globals w) = None ->
  serve (text_to_speech_base64 e) w =
    (error_response
       [ Lit (lit "Accent " ++ dquote); Fmt (JStr a);
         Lit (dquote ++ lit " not available") ] 400, w).
Proof.
  intros Hp. pose proof (has_text_not_empty _ _ _ Htext) as Hd.
  pose proof (not_blank_test _ Hsaid) as Hs.
  destruct w as [g rj fs lg]. simpl in Hbody, Hp. subst rj.
  unfold accent_of in Haccent.
  unfold text_to_speech_base64. follow. reflexivity.
Qed.

Lemma ksl_b64_accepted p :
  lookup a (globals w) = Some p ->
  after_engine (mkCall p (JStr s) (voice_of d) (speed_of d))
    (sent_as_base64 (JStr a) (voice_of d) (speed_of d)) w
    (fst (serve (text_to_speech_base64 e) w))
    (snd (serve (text_to_speech_base64 e) w)).
Proof.
  intros Hp. pose proof (has_text_not_empty _ _ _ Htext) as Hd.
  pose proof (not_blank_test _ Hsaid) as Hs.
  destruct w as [g rj fs lg]. simpl in Hbody, Hp. subst rj.
  unfold accent_of in Haccent.
  unfold after_engine, voice_of, speed_of.
  cbn [call_engine call_text call_voice call_speed].
  unfold text_to_speech_base64. follow.
  destruct (run p _ _ _) as [[|c segs]|ex]; cbn [is_nil]; follow;
    split; reflexivity.
Qed.

End MultiVoiceBase64.

(* ================================================================== *)
(** * app.py, POST /tts: the paths *)
(* ================================================================== *)

Section SingleVoiceTts.

Import App.

Variable e : env.
Variable w : world slot.

Lemma app_tts_not_initialized :
  globals w = None ->
  serve (text_to_speech e) w = (PipelineNotInitialized, w).
Proof.
  intros Hg. destruct w as [g rj fs lg]. simpl in Hg. subst g. reflexivity.
Qed.

Variable p : Engine.
Hypothesis Hready : globals w = Some p.

Lemma app_tts_json_raises ex :
  request_json w = JsonRaises ex ->
  serve (text_to_speech e) w = (error_response [StrExn ex] 500, w).
Proof.
  intros Hj. destruct w as [g rj fs lg]. simpl in Hj, Hready. subst rj g.
  reflexivity.
Qed.

Lemma app_tts_falsy data :
  request_json w = JsonValue data -> truthy data = false ->
  serve (text_to_speech e) w = (MissingField, w).
Proof.
  intros Hj Hf. destruct w as [g rj fs lg]. simpl in Hj, Hready. subst rj g.
  unfold text_to_speech, text_missing, serve, try_except, bind, get_json,
    get_pipeline.
  cbn [request_json globals]. rewrite Hf. reflexivity.
Qed.

Variable d : list (pystr * json).
Hypothesis Hbody : request_json w = JsonValue (JDict d).

Lemma app_tts_no_text :
  lookup (lit "text") d = None ->
  serve (text_to_speech e) w = (MissingField, w).
Proof.
  intros Ht. destruct w as [g rj fs lg]. simpl in Hbody, Hready. subst rj g.
  unfold text_to_speech. destruct (is_nil d) eqn:Hd; follow; reflexivity.
Qed.

Variable s : pystr.
Hypothesis Htext : lookup (lit "text") d = Some (JStr s).

Lemma app_tts_blank :
  strip s = [] ->
  serve (text_to_speech e) w = (EmptyText, w).
Proof.
  intros Hs%blank_test. pose proof (has_text_not_empty _ _ _ Htext) as Hd.
  destruct w as [g rj fs lg]. simpl in Hbody, Hready. subst rj g.
  unfold text_to_speech. follow. reflexivity.
Qed.

Hypothesis Hsaid : strip s <> [].

Lemma app_tts_too_long :
  5000 < Z.of_nat (length s) ->
  serve (text_to_speech e) w = (TextTooLong, w).
Proof.
  intros Hl%too_long_test. pose proof (has_text_not_empty _ _ _ Htext) as Hd.
  pose proof (not_blank_test _ Hsaid) as Hs.
  destruct w as [g rj fs lg]. simpl in Hbody, Hready. subst rj g.
  unfold text_to_speech. follow. reflexivity.
Qed.

Hypothesis Hlen : Z.of_nat (length s) <= 5000.

Variable n : number.
Hypothesis Hspeed : as_number (speed_of d) = Some n.

Lemma app_tts_speed_rejected :
  out_of_range n = true ->
  serve (text_to_speech e) w = (SpeedOutOfRange, w).
Proof.
  intros Hr. pose proof (has_text_not_empty _ _ _ Htext) as Hd.
  pose proof (not_blank_test _ Hsaid) as Hs.
  pose proof (length_test _ Hlen) as Hl.
  destruct w as [g rj fs lg]. simpl in Hbody, Hready. subst rj g.
  unfold speed_of in Hspeed. unfold out_of_range in Hr.
  unfold text_to_speech. follow.
  destruct (num_lt n (Fin (1 # 2))) eqn:Hlow; follow; [reflexivity|].
  cbn [orb] in Hr. follow. reflexivity.
Qed.

Lemma app_tts_accepted :
  out_of_range n = false ->
  after_engine (mkCall p (JStr s) (JStr VOICE) (speed_of d))
    (sent_as_file e (Lit VOICE)) w
    (fst (serve (text_to_speech e) w)) (snd (serve (text_to_speech e) w)).
Proof.
  intros Hr. pose proof (has_text_not_empty _ _ _ Htext) as Hd.
  pose proof (not_blank_test _ Hsaid) as Hs.
  pose proof (length_test _ Hlen) as Hl.
  destruct w as [g rj fs lg]. simpl in Hbody, Hready. subst rj g.
  unfold speed_of in *. unfold out_of_range in Hr.
  apply orb_false_elim in Hr as [Hlow Hhigh].
  unfold after_engine.
  cbn [call_engine call_text call_voice call_speed].
  unfold text_to_speech. follow.
  destruct (run p _ _ _) as [[|c segs]|ex]; cbn [is_nil]; follow;
    try (split; reflexivity).
  unfold sent_as_file.
  destruct (tmp_error e), (write_error e), (send_error e); follow;
    split; reflexivity.
Qed.

End SingleVoiceTts.

(* ================================================================== *)
(** * Every run of a synthesis handler *)
(* ================================================================== *)

(** What [after_engine] says about the world and the response, for the
    two ways of answering. *)
Lemma after_engine_file {G} (e : env) (label : piece) c (w : world G) r w' :
  after_engine c (sent_as_file e label) w r w' ->
  engine_log w' = c :: engine_log w /\
  globals w' = globals w /\
  request_json w' = request_json w /\
  (run (call_engine c) (call_text c) (call_voice c) (call_speed c)
     = Yields [] -> r = NoAudioGenerated) /\
  ((status r = 500 /\
    (files w' = files w \/
     exists holds, files w' = (tmp_name e, holds) :: files w)) \/
   (exists segs,
       run (call_engine c) (call_text c) (call_voice c) (call_speed c)
         = Yields segs /\ segs <> [] /\
       r = wav_attachment e label /\
       files w' =
         (tmp_name e, Some (WavOf (final_audio segs) 24000)) :: files w)).
Proof.
  unfold after_engine, sent_as_file.
  destruct (run _ _ _ _) as [[|x segs]|ex];
    [| destruct (tmp_error e), (write_error e), (send_error e) |];
    intros [-> ->]; simpl;
    (split; [reflexivity|]); (split; [reflexivity|]);
    (split; [reflexivity|]); (split; [try discriminate; auto|]);
    try (left; split; [reflexivity|]; first [now left | right; eauto]).
  right. exists (x :: segs). repeat split. discriminate.
Qed.

(** The same, path by path: what the answer and the temporary directory
    are once the engine has given audio, by the step that failed. *)
Lemma after_engine_file_exact {G} (e : env) (label : piece) c
    (w : world G) r w' :
  after_engine c (sent_as_file e label) w r w' ->
  match run (call_engine c) (call_text c) (call_voice c) (call_speed c) with
  | Yields (x :: segs) =>
      match tmp_error e, write_error e, send_error e with
      | Some ex, _, _ =>
          r = error_response [StrExn ex] 500 /\ files w' = files w
      | None, Some ex, _ =>
          r = error_response [StrExn ex] 500 /\
          files w' = (tmp_name e, None) :: files w
      | None, None, Some ex =>
          r = error_response [StrExn ex] 500 /\
          files w' =
            (tmp_name e, Some (WavOf (final_audio (x :: segs)) 24000))
              :: files w
      | None, None, None =>
          r = wav_attachment e label /\
          files w' =
            (tmp_name e, Some (WavOf (final_audio (x :: segs)) 24000))
              :: files w
      end
  | _ => status r = 500 /\ files w' = files w
  end.
Proof.
  unfold after_engine, sent_as_file.
  destruct (run _ _ _ _) as [[|x segs]|ex];
    [| destruct (tmp_error e), (write_error e), (send_error e) |];
    intros [-> ->]; split; reflexivity.
Qed.

Lemma after_engine_base64 {G} accent voice speed c (w : world G) r w' :
  after_engine c (sent_as_base64 accent voice speed) w r w' ->
  w' = log_call c w /\
  (run (call_engine c) (call_text c) (call_voice c) (call_speed c)
     = Yields [] -> r = NoAudioGenerated) /\
  (status r = 500 \/
   (exists segs,
       run (call_engine c) (call_text c) (call_voice c) (call_speed c)
         = Yields segs /\ segs <> [] /\
       r = base64_reply (final_audio segs) accent voice speed)).
Proof.
  unfold after_engine.
  destruct (run _ _ _ _) as [[|x segs]|ex]; intros [-> ->]; simpl;
    repeat split; try discriminate; auto.
  right. exists (x :: segs). repeat split. discriminate.
Qed.

(** A request to the multi-voice [/tts] either ends before the engine,
    with an error and the world as it was, or is a well-formed request
    for a loaded accent and ends as [after_engine] says. *)
Lemma ksl_tts_cases (e : env) (w : world KakoraServerLock.pool) r w' :
  serve (KakoraServerLock.text_to_speech e) w = (r, w') ->
  (w' = w /\ (status r = 400 \/ status r = 500)) \/
  (exists d s a p,
      request_json w = JsonValue (JDict d) /\
      lookup (lit "text") d = Some (JStr s) /\
      strip s <> [] /\ Z.of_nat (length s) <= 5000 /\
      accent_of d = JStr a /\ lookup a (globals w) = Some p /\
      after_engine (mkCall p (JStr s) (voice_of d) (speed_of d))
        (sent_as_file e (Fmt (JStr a))) w r w').
Proof.
  intros H. destruct w as [g rj fs lg].
  pose proof H as Hrun.
  unfold KakoraServerLock.text_to_speech in H. explore H;
    try (inversion H; subst; left; split; [reflexivity | simpl; auto]).
  all: right; subst.
  all: match goal with
       | Ht : lookup (lit "text") ?d = Some (JStr ?s),
         Ha : dict_get ?d _ _ = JStr ?a,
         Hp : lookup ?a _ = Some ?p |- _ =>
           exists d, s, a, p;
           repeat split;
           [ exact Ht | now apply is_nil_false | now apply Z.ltb_ge
           | exact Ha | exact Hp | ]
       end.
  all: match goal with
       | Ht : lookup (lit "text") ?d = Some (JStr ?s),
         Hs : is_nil (strip ?s) = false,
         Hl : (5000 <? _) = false,
         Ha : dict_get ?d _ _ = JStr ?a,
         Hp : lookup ?a _ = Some ?p,
         Hr : serve _ ?w0 = _ |- _ =>
           pose proof (ksl_tts_accepted e w0 d eq_refl s Ht
                         (proj1 (is_nil_false _) Hs)
                         (proj1 (Z.ltb_ge _ _) Hl) a Ha p Hp) as Hacc;
           rewrite Hr in Hacc; exact Hacc
       end.
Qed.

(** The same for [/tts_base64], which has no rule on the length. *)
Lemma ksl_b64_cases (e : env) (w : world KakoraServerLock.pool) r w' :
  serve (KakoraServerLock.text_to_speech_base64 e) w = (r, w') ->
  (w' = w /\ (status r = 400 \/ status r = 500)) \/
  (exists d s a p,
      request_json w = JsonValue (JDict d) /\
      lookup (lit "text") d = Some (JStr s) /\
      strip s <> [] /\
      accent_of d = JStr a /\ lookup a (globals w) = Some p /\
      after_engine (mkCall p (JStr s) (voice_of d) (speed_of d))
        (sent_as_base64 (JStr a) (voice_of d) (speed_of d)) w r w').
Proof.
  intros H. destruct w as [g rj fs lg].
  pose proof H as Hrun.
  unfold KakoraServerLock.text_to_speech_base64 in H. explore H;
    try (inversion H; subst; left; split; [reflexivity | simpl; auto]).
  all: right; subst.
  all: match goal with
       | Ht : lookup (lit "text") ?d = Some (JStr ?s),
         Ha : dict_get ?d _ _ = JStr ?a,
         Hp : lookup ?a _ = Some ?p |- _ =>
           exists d, s, a, p;
           repeat split;
           [ exact Ht | now apply is_nil_false | exact Ha | exact Hp | ]
       end.
  all: match goal with
       | Ht : lookup (lit "text") ?d = Some (JStr ?s),
         Hs : is_nil (strip ?s) = false,
         Ha : dict_get ?d _ _ = JStr ?a,
         Hp : lookup ?a _ = Some ?p,
         Hr : serve _ ?w0 = _ |- _ =>
           pose proof (ksl_b64_accepted e w0 d eq_refl s Ht
                         (proj1 (is_nil_false _) Hs) a Ha p Hp) as Hacc;
           rewrite Hr in Hacc; exact Hacc
       end.
Qed.

(** The same for the single-voice [/tts]: the engine is the loaded one,
    the voice is fixed and the speed is in range. *)
Lemma app_tts_cases (e : env) (w : world App.slot) r w' :
  serve (App.text_to_speech e) w = (r, w') ->
  (w' = w /\ (status r = 400 \/ status r = 500)) \/
  (exists d s p n,
      globals w = Some p /\
      request_json w = JsonValue (JDict d) /\
      lookup (lit "text") d = Some (JStr s) /\
      strip s <> [] /\ Z.of_nat (length s) <= 5000 /\
      as_number (speed_of d) = Some n /\ out_of_range n = false /\
      after_engine (mkCall p (JStr s) (JStr App.VOICE) (speed_of d))
        (sent_as_file e (Lit App.VOICE)) w r w').
Proof.
  intros H. destruct w as [g rj fs lg].
  pose proof H as Hrun.
  unfold App.text_to_speech in H. explore H;
    try (inversion H; subst; left; split; [reflexivity | simpl; auto]).
  all: right; subst.
  all: match goal with
       | Ht : lookup (lit "text") ?d = Some (JStr ?s),
         Hs : is_nil (strip ?s) = false,
         Hl : (5000 <? _) = false,
         Hn : as_number _ = Some ?n,
         Hlow : num_lt ?n _ = false,
         Hhigh : num_lt _ ?n = false,
         Hr : serve _ (mkWorld (Some ?p) _ _ _) = _ |- _ =>
           assert (Hrange : out_of_range n = false)
             by (unfold out_of_range; now rewrite Hlow, Hhigh);
           exists d, s, p, n;
           repeat split;
           [ exact Ht | now apply is_nil_false | now apply Z.ltb_ge
           | exact Hn | exact Hrange | ];
           match type of Hr with
           | serve _ ?w0 = _ =>
               pose proof (app_tts_accepted e w0 p eq_refl d eq_refl s Ht
                             (proj1 (is_nil_false _) Hs)
                             (proj1 (Z.ltb_ge _ _) Hl) n Hn Hrange) as Hacc
           end;
           rewrite Hr in Hacc; exact Hacc
       end.
Qed.

(** [/tts/british] never reaches [text_to_speech]: the assignment to
    [request.json] raises, and the handler's own [except] answers. *)
Lemma british_tts_cases (e : env) (w : world KakoraServerLock.pool) r w' :
  serve (KakoraServerLock.british_tts e) w = (r, w') ->
  status r = 500 /\ globals w' = globals w /\ files w' = files w /\
  engine_log w' = engine_log w.
Proof.
  intros H. destruct w as [g rj fs lg].
  unfold KakoraServerLock.british_tts in H. explore H;
    inversion H; subst; simpl; auto.
Qed.

(* ================================================================== *)
(** * Assembling the waveform *)
(* ================================================================== *)

Lemma final_audio_concat (audio_segments : list chunk) :
  audio_segments <> [] -> final_audio audio_segments = concat audio_segments.
Proof.
  intros Hne. unfold final_audio.
  destruct audio_segments as [|c [|c' rest]].
  - now contradiction Hne.
  - simpl. now rewrite app_nil_r.
  - replace (Z.of_nat (length (c :: c' :: rest)) =? 1) with false;
      [reflexivity|].
    symmetry. apply Z.eqb_neq. simpl length. lia.
Qed.



(** The audio a successful request carries is that concatenation: in the
    file [/tts] writes and in the payload of [/tts_base64]. *)
Lemma sent_audio_is_concatenation (e : env) :
  (forall (w : world KakoraServerLock.pool) r w',
      serve (KakoraServerLock.text_to_speech e) w = (r, w') ->
      status r = 200 ->
      exists c segs,
        engine_log w' = c :: engine_log w /\
        run (call_engine c) (call_text c) (call_voice c) (call_speed c)
          = Yields segs /\
        files w' = (tmp_name e, Some (WavOf (concat segs) 24000)) :: files w)
  /\
  (forall (w : world App.slot) r w',
      serve (App.text_to_speech e) w = (r, w') ->
      status r = 200 ->
      exists c segs,
        engine_log w' = c :: engine_log w /\
        run (call_engine c) (call_text c) (call_voice c) (call_speed c)
          = Yields segs /\
        files w' = (tmp_name e, Some (WavOf (concat segs) 24000)) :: files w).
Proof.
  split; intros w r w' Hrun Hok.
  - apply ksl_tts_cases in Hrun as [[_ [H|H]]|(d & s & a & p & _ & _ & _ & _ & _ & _ & Hafter)];
      try (rewrite H in Hok; discriminate).
    apply after_engine_file in Hafter
      as (Hlog & _ & _ & _ & [[H _]|(segs & Hsegs & Hne & _ & Hfiles)]);
      [rewrite H in Hok; discriminate|].
    eexists _, segs. repeat split; [exact Hlog | exact Hsegs |].
    rewrite Hfiles.
    now rewrite (final_audio_concat segs Hne).
  - apply app_tts_cases in Hrun as [[_ [H|H]]|(d & s & p & n & _ & _ & _ & _ & _ & _ & _ & Hafter)];
      try (rewrite H in Hok; discriminate).
    apply after_engine_file in Hafter
      as (Hlog & _ & _ & _ & [[H _]|(segs & Hsegs & Hne & _ & Hfiles)]);
      [rewrite H in Hok; discriminate|].
    eexists _, segs. repeat split; [exact Hlog | exact Hsegs |].
    rewrite Hfiles.
    now rewrite (final_audio_concat segs Hne).
Qed.

(* ================================================================== *)
(** * No audio *)
(* ================================================================== *)

(** C6. A request that passed validation has made an engine call; when
    draining that call gives no chunk, the response is the error
    [No audio generated] with status 500, in the three synthesis
    handlers: neither a success without audio nor a client error. *)
Theorem no_audio_is_internal_error (e : env) (c : engine_call) :
  run (call_engine c) (call_text c) (call_voice c) (call_speed c)
    = Yields [] ->
  (forall (w : world KakoraServerLock.pool) r w',
      serve (KakoraServerLock.text_to_speech e) w = (r, w') ->
      engine_log w' = c :: engine_log w ->
      r = NoAudioGenerated /\ status r = 500) /\
  (forall (w : world KakoraServerLock.pool) r w',
      serve (KakoraServerLock.text_to_speech_base64 e) w = (r, w') ->
      engine_log w' = c :: engine_log w ->
      r = NoAudioGenerated /\ status r = 500) /\
  (forall (w : world App.slot) r w',
      serve (App.text_to_speech e) w = (r, w') ->
      engine_log w' = c :: engine_log w ->
      r = NoAudioGenerated /\ status r = 500).
Proof.
  intros Hsilent. split; [|split]; intros w r w' Hrun Hlog;
    (assert (r = NoAudioGenerated) as ->; [|split; reflexivity]).
  - apply ksl_tts_cases in Hrun
      as [[-> _]|(d & s & a & p & _ & _ & _ & _ & _ & _ & Hafter)].
    + now apply list_neq_cons in Hlog.
    + apply after_engine_file in Hafter as (Hcall & _ & _ & Hnone & _).
      rewrite Hcall in Hlog. injection Hlog as <-. now apply Hnone.
  - apply ksl_b64_cases in Hrun
      as [[-> _]|(d & s & a & p & _ & _ & _ & _ & _ & Hafter)].
    + now apply list_neq_cons in Hlog.
    + apply after_engine_base64 in Hafter as (-> & Hnone & _).
      simpl in Hlog. injection Hlog as <-. now apply Hnone.
  - apply app_tts_cases in Hrun
      as [[-> _]|(d & s & p & n & _ & _ & _ & _ & _ & _ & _ & Hafter)].
    + now apply list_neq_cons in Hlog.
    + apply after_engine_file in Hafter as (Hcall & _ & _ & Hnone & _).
      rewrite Hcall in Hlog. injection Hlog as <-. now apply Hnone.
Qed.

Lemma no_audio_is_internal_error_witness :
  run silent_engine hello (JStr (lit "af_heart")) (JNum (Fin 1)) = Yields [] /\
  fst (serve (KakoraServerLock.text_to_speech sample_env)
         (british_only silent_engine body_hello)) = NoAudioGenerated /\
  fst (serve (KakoraServerLock.text_to_speech_base64 sample_env)
         (british_only silent_engine body_hello)) = NoAudioGenerated /\
  fst (serve (App.text_to_speech sample_env)
         (single_voice silent_engine body_hello)) = NoAudioGenerated.
Proof.
  pose proof (no_audio_is_internal_error sample_env
                (mkCall silent_engine hello (JStr (lit "af_heart"))
                   (JNum (Fin 1))) eq_refl) as (Hk & Hb & Ha).
  split; [reflexivity|]. split; [|split].
  - apply (Hk (british_only silent_engine body_hello) _ _
             (surjective_pairing _)).
    reflexivity.
  - apply (Hb (british_only silent_engine body_hello) _ _
             (surjective_pairing _)).
    reflexivity.
  - apply (Ha (single_voice silent_engine body_hello) _ _
             (surjective_pairing _)).
    reflexivity.
Defined.

(* ================================================================== *)
(** * The engine pool during requests *)
(* ================================================================== *)

(** C9. No request handler of the multi-voice server changes the global
    [pipelines]: after [/health], [/accents], [/voices], [/tts],
    [/tts/british] and [/tts_base64] the pool is the one the request
    found. *)
Theorem handlers_leave_pool_unchanged
    (e : env) (w : world KakoraServerLock.pool) :
  globals (snd (serve (KakoraServerLock.health_check e) w)) = globals w /\
  globals (snd (serve (KakoraServerLock.get_accents e) w)) = globals w /\
  globals (snd (serve (KakoraServerLock.get_voices e) w)) = globals w /\
  globals (snd (serve (KakoraServerLock.text_to_speech e) w)) = globals w /\
  globals (snd (serve (KakoraServerLock.british_tts e) w)) = globals w /\
  globals (snd (serve (KakoraServerLock.text_to_speech_base64 e) w))
    = globals w.
Proof.
  repeat split; try reflexivity.
  - destruct (serve (KakoraServerLock.text_to_speech e) w) as [r w'] eqn:Hrun.
    apply ksl_tts_cases in Hrun
      as [[-> _]|(d & s & a & p & _ & _ & _ & _ & _ & _ & Hafter)];
      [reflexivity|].
    now apply after_engine_file in Hafter as (_ & Hpool & _).
  - destruct (serve (KakoraServerLock.british_tts e) w) as [r w'] eqn:Hrun.
    now apply british_tts_cases in Hrun as (_ & Hpool & _).
  - destruct (serve (KakoraServerLock.text_to_speech_base64 e) w)
      as [r w'] eqn:Hrun.
    apply ksl_b64_cases in Hrun
      as [[-> _]|(d & s & a & p & _ & _ & _ & _ & _ & Hafter)];
      [reflexivity|].
    now apply after_engine_base64 in Hafter as (-> & _).
Qed.

(** The pool is written by [initialize_pipelines] alone, and only under
    the configured accent keys. *)
Lemma load_each_keys (KPipeline : KakoraServerLock.loader) configs
    (w : world KakoraServerLock.pool) k :
  In k (keys (globals (snd (KakoraServerLock.load_each KPipeline configs w))))
  -> In k (keys (globals w)) \/ In k (keys configs).
Proof.
  revert w. induction configs as [|[accent [lang name]] rest IH]; intros w.
  - simpl. auto.
  - simpl. unfold bind, try_except, KakoraServerLock.construct.
    destruct (KPipeline lang (lit "hexgrad/Kokoro-82M")) as [p|ex]; simpl.
    + intros H. apply IH in H as [H|H]; [|auto]. simpl in H.
      clear IH. revert H. generalize (globals w). intros g.
      induction g as [|[k0 v0] g IHg]; simpl.
      * intros [<-|[]]. auto.
      * destruct (pystr_eqb accent k0); simpl; intros [<-|H]; auto.
        apply IHg in H as [H|H]; auto.
    + intros H. apply IH in H as [H|H]; auto.
Qed.

(* ================================================================== *)
(** * The default voice *)
(* ================================================================== *)

(** C10. In the multi-voice server a request whose body has no [voice]
    reaches the engine with the voice [af_heart], on [/tts] and on
    [/tts_base64], [/tts_base64] answers with the voice [af_heart], and
    [/voices] gives [af_allison] as the default. *)
Theorem omitted_voice_is_af_heart
    (e : env) (w : world KakoraServerLock.pool) (d : list (pystr * json)) :
  request_json w = JsonValue (JDict d) ->
  lookup (lit "voice") d = None ->
  (forall r w' c,
      serve (KakoraServerLock.text_to_speech e) w = (r, w') ->
      engine_log w' = c :: engine_log w ->
      call_voice c = JStr (lit "af_heart")) /\
  (forall r w' c,
      serve (KakoraServerLock.text_to_speech_base64 e) w = (r, w') ->
      engine_log w' = c :: engine_log w ->
      call_voice c = JStr (lit "af_heart")) /\
  (forall r w',
      serve (KakoraServerLock.text_to_speech_base64 e) w = (r, w') ->
      status r = 200 ->
      exists fields,
        content r = Jsonify fields /\
        lookup (lit "voice") fields = Some (RJ (JStr (lit "af_heart")))) /\
  (forall s a p,
      lookup (lit "text") d = Some (JStr s) -> strip s <> [] ->
      accent_of d = JStr a -> lookup a (globals w) = Some p ->
      (Z.of_nat (length s) <= 5000 ->
       engine_log (snd (serve (KakoraServerLock.text_to_speech e) w))
         = mkCall p (JStr s) (JStr (lit "af_heart")) (speed_of d)
             :: engine_log w) /\
      engine_log (snd (serve (KakoraServerLock.text_to_speech_base64 e) w))
        = mkCall p (JStr s) (JStr (lit "af_heart")) (speed_of d)
            :: engine_log w) /\
  (exists fields,
      fst (serve (KakoraServerLock.get_voices e) w)
        = mkResponse 200 (Jsonify fields) /\
      lookup (lit "default") fields = Some (RJ (JStr (lit "af_allison")))).
Proof.
  intros Hbody Hvoice.
  assert (Hdefault : voice_of d = JStr (lit "af_heart")).
  { unfold voice_of, dict_get. now rewrite Hvoice. }
  split; [|split; [|split; [|split]]].
  - intros r w' c Hrun Hlog.
    apply ksl_tts_cases in Hrun
      as [[-> _]|(d' & s & a & p & Hb & _ & _ & _ & _ & _ & Hafter)].
    + now apply list_neq_cons in Hlog.
    + rewrite Hbody in Hb. injection Hb as <-.
      apply after_engine_file in Hafter as (Hcall & _).
      rewrite Hcall in Hlog. injection Hlog as <-. exact Hdefault.
  - intros r w' c Hrun Hlog.
    apply ksl_b64_cases in Hrun
      as [[-> _]|(d' & s & a & p & Hb & _ & _ & _ & _ & Hafter)].
    + now apply list_neq_cons in Hlog.
    + rewrite Hbody in Hb. injection Hb as <-.
      apply after_engine_base64 in Hafter as (-> & _).
      simpl in Hlog. injection Hlog as <-. exact Hdefault.
  - intros r w' Hrun Hok.
    apply ksl_b64_cases in Hrun
      as [[_ [H|H]]|(d' & s & a & p & Hb & _ & _ & _ & _ & Hafter)];
      try (rewrite H in Hok; discriminate).
    rewrite Hbody in Hb. injection Hb as <-.
    apply after_engine_base64 in Hafter
      as (_ & _ & [H|(segs & _ & _ & ->)]);
      [rewrite H in Hok; discriminate|].
    eexists. split; [reflexivity|]. rewrite Hdefault. reflexivity.
  - intros s a p Htext Hsaid Haccent Hpool. split.
    + intros Hlen.
      pose proof (ksl_tts_accepted e w d Hbody s Htext Hsaid Hlen a Haccent
                    p Hpool) as Hafter.
      apply after_engine_file in Hafter as (Hcall & _).
      now rewrite Hcall, Hdefault.
    + pose proof (ksl_b64_accepted e w d Hbody s Htext Hsaid a Haccent
                    p Hpool) as Hafter.
      apply after_engine_base64 in Hafter as (Hw & _).
      now rewrite Hw, Hdefault.
  - eexists. split; reflexivity.
Qed.

Lemma omitted_voice_is_af_heart_witness :
  request_json (british_only two_chunk_engine body_hello)
    = JsonValue (JDict [(lit "text", hello)]) /\
  lookup (lit "voice") [(lit "text", hello)] = None /\
  engine_log (snd (serve (KakoraServerLock.text_to_speech sample_env)
                     (british_only two_chunk_engine body_hello)))
    = [mkCall two_chunk_engine hello (JStr (lit "af_heart")) (JNum (Fin 1))]
  /\
  engine_log (snd (serve (KakoraServerLock.text_to_speech_base64 sample_env)
                     (british_only two_chunk_engine body_hello)))
    = [mkCall two_chunk_engine hello (JStr (lit "af_heart")) (JNum (Fin 1))].
Proof.
  split; [reflexivity|]. split; [reflexivity|].
  destruct (omitted_voice_is_af_heart sample_env
              (british_only two_chunk_engine body_hello)
              [(lit "text", hello)] eq_refl eq_refl)
    as (_ & _ & _ & Hcall & _).
  destruct (Hcall (lit "Hello world") (lit "british") two_chunk_engine
              eq_refl ltac:(vm_compute; discriminate) eq_refl eq_refl)
    as [Htts Hb64].
  split; [apply Htts; vm_compute; discriminate | exact Hb64].
Defined.

(* ================================================================== *)
(** * The temporary file *)
(* ================================================================== *)

Lemma stream_keeps_world {G} (r : response) (w : world G) :
  snd (stream r w) = w.
Proof. unfold stream. now destruct (content r). Qed.

Lemma stream_created_file {G} (e : env) label (w : world G) b :
  files w = (tmp_name e, Some b) :: tl (files w) ->
  fst (stream (wav_attachment e label) w) = Some b.
Proof.
  intros Hf. unfold stream, wav_attachment, dict_get. simpl.
  rewrite Hf. simpl. now rewrite pystr_eqb_refl.
Qed.

(** A request that reached the engine from [/tts], followed to the end
    of the response: what is in the temporary directory then, by the
    status and by the step that failed. *)
Lemma file_after_engine {G} (e : env) label c (w : world G) r w1 :
  after_engine c (sent_as_file e label) w r w1 ->
  (status r = 200 ->
   exists audio,
     fst (stream r w1) = Some (WavOf audio 24000) /\
     files (snd (stream r w1))
       = (tmp_name e, Some (WavOf audio 24000)) :: files w) /\
  (files (snd (stream r w1)) = files w \/
   exists holds,
     files (snd (stream r w1)) = (tmp_name e, holds) :: files w) /\
  (status r = 400 -> files (snd (stream r w1)) = files w) /\
  (write_error e = None -> send_error e = None ->
   status r <> 200 -> files (snd (stream r w1)) = files w) /\
  (forall x segs,
      run (call_engine c) (call_text c) (call_voice c) (call_speed c)
        = Yields (x :: segs) ->
      tmp_error e = None ->
      (forall ex,
          write_error e = Some ex ->
          r = error_response [StrExn ex] 500 /\
          files (snd (stream r w1)) = (tmp_name e, None) :: files w) /\
      (forall ex,
          write_error e = None -> send_error e = Some ex ->
          r = error_response [StrExn ex] 500 /\
          files (snd (stream r w1))
            = (tmp_name e, Some (WavOf (final_audio (x :: segs)) 24000))
                :: files w)).
Proof.
  intros Hafter. rewrite stream_keeps_world.
  pose proof (after_engine_file_exact _ _ _ _ _ _ Hafter) as Hexact.
  destruct (run _ _ _ _) as [[|x segs]|ex0].
  - destruct Hexact as [H500 Hfiles].
    repeat split; try discriminate; auto;
      intros H; rewrite H in H500; discriminate.
  - destruct (tmp_error e) as [ex1|], (write_error e) as [ex2|],
      (send_error e) as [ex3|]; destruct Hexact as [-> Hfiles];
      (split; [|split; [|split; [|split]]]);
      try (simpl; discriminate);
      try (intros; discriminate);
      try (left; exact Hfiles);
      try (right; eexists; exact Hfiles);
      try (intros; exact Hfiles).
    all: try (intros _ _ H; now contradiction H).
    all: try (intros _; exists (final_audio (x :: segs));
              split; [apply stream_created_file; now rewrite Hfiles
                     | exact Hfiles]).
    all: intros x0 segs0 Heq _; injection Heq as <- <-;
      split; intros ex Hw; try discriminate;
      try (injection Hw as <-; split; [reflexivity | exact Hfiles]).
    all: intros Hs; try discriminate.
    all: injection Hs as <-; split; [reflexivity | exact Hfiles].
  - destruct Hexact as [H500 Hfiles].
    repeat split; try discriminate; auto;
      intros H; rewrite H in H500; discriminate.
Qed.

(** C8, as the code has it.  The file [/tts] creates with [delete=False]
    is removed by nobody.  A request answered 200 leaves exactly that
    file, holding the bytes that were streamed, in addition to the files
    that were there.  Whatever the answer, no file that was there is
    removed and at most the one file is added; a request answered 400
    adds none.  The file is created before [sf.write] and [send_file]
    run, inside the [try]: when the engine gave audio and one of the two
    raises, the answer is 500 with the exception's text and the file
    stays, empty after a failed write and with the audio after a failed
    send; only where neither can raise does every answer other than 200
    leave the files as they were.  [/tts_base64] never creates a
    file. *)
Theorem temporary_file_outlives_response (e : env) :
  (forall (w : world KakoraServerLock.pool) r sent w',
      request_cycle (KakoraServerLock.text_to_speech e) w = (r, sent, w') ->
      (status r = 200 ->
       exists audio,
         sent = Some (WavOf audio 24000) /\
         files w' = (tmp_name e, Some (WavOf audio 24000)) :: files w) /\
      (files w' = files w \/
       exists holds, files w' = (tmp_name e, holds) :: files w) /\
      (status r = 400 -> files w' = files w) /\
      (write_error e = None -> send_error e = None ->
       status r <> 200 -> files w' = files w) /\
      (forall c x segs,
          engine_log w' = c :: engine_log w ->
          run (call_engine c) (call_text c) (call_voice c) (call_speed c)
            = Yields (x :: segs) ->
          tmp_error e = None ->
          (forall ex,
              write_error e = Some ex ->
              r = error_response [StrExn ex] 500 /\
              files w' = (tmp_name e, None) :: files w) /\
          (forall ex,
              write_error e = None -> send_error e = Some ex ->
              r = error_response [StrExn ex] 500 /\
              files w'
                = (tmp_name e, Some (WavOf (final_audio (x :: segs)) 24000))
                    :: files w))) /\
  (forall (w : world App.slot) r sent w',
      request_cycle (App.text_to_speech e) w = (r, sent, w') ->
      (status r = 200 ->
       exists audio,
         sent = Some (WavOf audio 24000) /\
         files w' = (tmp_name e, Some (WavOf audio 24000)) :: files w) /\
      (files w' = files w \/
       exists holds, files w' = (tmp_name e, holds) :: files w) /\
      (status r = 400 -> files w' = files w) /\
      (write_error e = None -> send_error e = None ->
       status r <> 200 -> files w' = files w) /\
      (forall c x segs,
          engine_log w' = c :: engine_log w ->
          run (call_engine c) (call_text c) (call_voice c) (call_speed c)
            = Yields (x :: segs) ->
          tmp_error e = None ->
          (forall ex,
              write_error e = Some ex ->
              r = error_response [StrExn ex] 500 /\
              files w' = (tmp_name e, None) :: files w) /\
          (forall ex,
              write_error e = None -> send_error e = Some ex ->
              r = error_response [StrExn ex] 500 /\
              files w'
                = (tmp_name e, Some (WavOf (final_audio (x :: segs)) 24000))
                    :: files w))) /\
  (forall (w : world KakoraServerLock.pool),
      files (snd (serve (KakoraServerLock.text_to_speech_base64 e) w))
        = files w).
Proof.
  split; [|split].
  - intros w r sent w' Hcycle. unfold request_cycle in Hcycle.
    destruct (serve _ w) as [r1 w1] eqn:Hrun.
    destruct (stream r1 w1) as [sent1 w2] eqn:Hstream.
    injection Hcycle as -> -> ->.
    pose proof (stream_keeps_world r w1) as Hw.
    rewrite Hstream in Hw. simpl in Hw. subst w'.
    apply ksl_tts_cases in Hrun
      as [[-> Hst]|(d & s & a & p & _ & _ & _ & _ & _ & _ & Hafter)].
    + split; [|split; [|split; [|split]]]; auto.
      * intros H. rewrite H in Hst. now destruct Hst.
      * intros c x segs Hlog. now apply list_neq_cons in Hlog.
    + pose proof (after_engine_file _ _ _ _ _ _ Hafter) as (Hcall & _).
      apply file_after_engine in Hafter.
      rewrite Hstream in Hafter.
      destruct Hafter as (H200 & Hkept & H400 & Hclean & Hleft).
      split; [|split; [|split; [|split]]]; auto.
      intros c x segs Hlog. rewrite Hcall in Hlog.
      injection Hlog as <-. apply Hleft.
  - intros w r sent w' Hcycle. unfold request_cycle in Hcycle.
    destruct (serve _ w) as [r1 w1] eqn:Hrun.
    destruct (stream r1 w1) as [sent1 w2] eqn:Hstream.
    injection Hcycle as -> -> ->.
    pose proof (stream_keeps_world r w1) as Hw.
    rewrite Hstream in Hw. simpl in Hw. subst w'.
    apply app_tts_cases in Hrun
      as [[-> Hst]|(d & s & p & n & _ & _ & _ & _ & _ & _ & _ & Hafter)].
    + split; [|split; [|split; [|split]]]; auto.
      * intros H. rewrite H in Hst. now destruct Hst.
      * intros c x segs Hlog. now apply list_neq_cons in Hlog.
    + pose proof (after_engine_file _ _ _ _ _ _ Hafter) as (Hcall & _).
      apply file_after_engine in Hafter.
      rewrite Hstream in Hafter.
      destruct Hafter as (H200 & Hkept & H400 & Hclean & Hleft).
      split; [|split; [|split; [|split]]]; auto.
      intros c x segs Hlog. rewrite Hcall in Hlog.
      injection Hlog as <-. apply Hleft.
  - intros w.
    destruct (serve _ w) as [r w'] eqn:Hrun.
    apply ksl_b64_cases in Hrun
      as [[-> _]|(d & s & a & p & _ & _ & _ & _ & _ & Hafter)];
      [reflexivity|].
    now apply after_engine_base64 in Hafter as (-> & _).
Qed.

(** Two requests for [Hello world] with the British engine loaded: one
    answered with the audio, which leaves the file holding it, and one
    whose write fails on a full disk, which is answered 500 and leaves
    the empty file. *)
Lemma temporary_file_outlives_response_witness :
  (status (fst (fst (request_cycle
                       (KakoraServerLock.text_to_speech sample_env)
                       (british_only two_chunk_engine body_hello)))) = 200 /\
   exists audio,
     snd (fst (request_cycle (KakoraServerLock.text_to_speech sample_env)
                 (british_only two_chunk_engine body_hello)))
       = Some (WavOf audio 24000) /\
     files (snd (request_cycle (KakoraServerLock.text_to_speech sample_env)
                   (british_only two_chunk_engine body_hello)))
       = (tmp_name sample_env, Some (WavOf audio 24000))
           :: files (british_only two_chunk_engine body_hello)) /\
  (tmp_error full_disk_env = None /\
   write_error full_disk_env
     = Some (Raised (lit "No space left on device")) /\
   fst (fst (request_cycle (KakoraServerLock.text_to_speech full_disk_env)
               (british_only two_chunk_engine body_hello)))
     = error_response
         [StrExn (Raised (lit "No space left on device"))] 500 /\
   files (snd (request_cycle
                 (KakoraServerLock.text_to_speech full_disk_env)
                 (british_only two_chunk_engine body_hello)))
     = (tmp_name full_disk_env, None)
         :: files (british_only two_chunk_engine body_hello)).
Proof.
  split.
  - split; [reflexivity|].
    apply (proj1 (proj1 (temporary_file_outlives_response sample_env)
                    (british_only two_chunk_engine body_hello) _ _ _
                    eq_refl)).
    reflexivity.
  - split; [reflexivity|]. split; [reflexivity|].
    apply (proj1 (proj2 (proj2 (proj2 (proj2
             (proj1 (temporary_file_outlives_response full_disk_env)
                (british_only two_chunk_engine body_hello) _ _ _
                eq_refl))))
             (mkCall two_chunk_engine hello (JStr (lit "af_heart"))
                (JNum (Fin 1)))
             [1 # 2; 1 # 4] [[0 # 1; 3 # 4]]
             eq_refl eq_refl eq_refl)
           (Raised (lit "No space left on device")) eq_refl).
Defined.

(** C8 as the specification states it does not hold: after a successful
    [/tts] request has been answered and streamed, the temporary
    directory, empty before, holds the file of that request. *)
Lemma temporary_file_left_behind :
  files (british_only two_chunk_engine body_hello) = [] /\
  status (fst (fst (request_cycle
                      (KakoraServerLock.text_to_speech sample_env)
                      (british_only two_chunk_engine body_hello)))) = 200 /\
  files (snd (request_cycle (KakoraServerLock.text_to_speech sample_env)
                (british_only two_chunk_engine body_hello)))
    = [(lit "/tmp/tmpk3x9q2.wav",
        Some (WavOf [1 # 2; 1 # 4; 0 # 1; 3 # 4] 24000))] /\
  files (snd (request_cycle (KakoraServerLock.text_to_speech sample_env)
                (british_only two_chunk_engine body_hello)))
    <> files (british_only two_chunk_engine body_hello).
Proof.
  repeat split; try reflexivity. vm_compute. discriminate.
Qed.

(* ================================================================== *)
(** * The order of the validation rules *)
(* ================================================================== *)

(** C7, as the code has it.  On [/tts] the rules are tried in a fixed
    order and the first that fails gives the response, with the world
    left as it was.  Multi-voice: missing field, empty text, text length,
    accent.  Single voice: the engine slot first, which when empty is
    answered by status 500 and [TTS pipeline not initialized], then
    missing field, empty text, text length, speed.  The body is what
    [request.get_json()] gives.  Where that call raises, as it does for
    a body that is absent or cannot be parsed, no rule is tried: the
    answer is status 500 with the text of the exception.  Where it gives
    a value that is false ([null], [false], zero, an empty string, list
    or object) or an object that has no [text], the answer is status 400
    and [Missing text parameter]; a text that strips to nothing is
    answered by [Text cannot be empty] whatever the other fields are;
    and no response of status 400 comes with an engine call. *)
Theorem tts_validation_order (e : env) :
  (forall w : world KakoraServerLock.pool,
      (forall ex,
          request_json w = JsonRaises ex ->
          serve (KakoraServerLock.text_to_speech e) w
            = (error_response [StrExn ex] 500, w)) /\
      (forall data,
          request_json w = JsonValue data -> truthy data = false ->
          serve (KakoraServerLock.text_to_speech e) w = (MissingField, w)) /\
      (forall d,
          request_json w = JsonValue (JDict d) ->
          (lookup (lit "text") d = None ->
           serve (KakoraServerLock.text_to_speech e) w = (MissingField, w)) /\
          (forall s,
              lookup (lit "text") d = Some (JStr s) ->
              (strip s = [] ->
               serve (KakoraServerLock.text_to_speech e) w = (EmptyText, w))
              /\
              (strip s <> [] -> 5000 < Z.of_nat (length s) ->
               serve (KakoraServerLock.text_to_speech e) w = (TextTooLong, w))
              /\
              (strip s <> [] -> Z.of_nat (length s) <= 5000 ->
               forall a,
                 accent_of d = JStr a -> lookup a (globals w) = None ->
                 serve (KakoraServerLock.text_to_speech e) w
                   = (UnknownAccentListing (JStr a) (keys (globals w)), w))))
      /\
      (forall r w',
          serve (KakoraServerLock.text_to_speech e) w = (r, w') ->
          status r = 400 -> w' = w)) /\
  (forall (w : world App.slot) p,
      globals w = Some p ->
      (forall ex,
          request_json w = JsonRaises ex ->
          serve (App.text_to_speech e) w
            = (error_response [StrExn ex] 500, w)) /\
      (forall data,
          request_json w = JsonValue data -> truthy data = false ->
          serve (App.text_to_speech e) w = (MissingField, w)) /\
      (forall d,
          request_json w = JsonValue (JDict d) ->
          (lookup (lit "text") d = None ->
           serve (App.text_to_speech e) w = (MissingField, w)) /\
          (forall s,
              lookup (lit "text") d = Some (JStr s) ->
              (strip s = [] ->
               serve (App.text_to_speech e) w = (EmptyText, w)) /\
              (strip s <> [] -> 5000 < Z.of_nat (length s) ->
               serve (App.text_to_speech e) w = (TextTooLong, w)) /\
              (strip s <> [] -> Z.of_nat (length s) <= 5000 ->
               forall n,
                 as_number (speed_of d) = Some n -> out_of_range n = true ->
                 serve (App.text_to_speech e) w = (SpeedOutOfRange, w)))) /\
      (forall r w',
          serve (App.text_to_speech e) w = (r, w') ->
          status r = 400 -> w' = w)) /\
  (forall w : world App.slot,
      globals w = None ->
      serve (App.text_to_speech e) w = (PipelineNotInitialized, w)).
Proof.
  split; [|split].
  - intros w. split; [|split; [|split]].
    + intros ex. apply ksl_tts_json_raises.
    + intros data. apply ksl_tts_falsy.
    + intros d Hbody.
      split; [intros; eapply ksl_tts_no_text; eassumption|].
      intros s Htext. split; [|split].
      * intros. eapply ksl_tts_blank; eassumption.
      * intros. eapply ksl_tts_too_long; eassumption.
      * intros. eapply ksl_tts_unknown_accent; eassumption.
    + intros r w' Hrun H400.
      apply ksl_tts_cases in Hrun
        as [[-> _]|(d & s & a & p & _ & _ & _ & _ & _ & _ & Hafter)];
        [reflexivity|].
      apply after_engine_file in Hafter
        as (_ & _ & _ & _ & [[H _]|(_ & _ & _ & -> & _)]).
      * rewrite H in H400. discriminate.
      * discriminate.
  - intros w p Hready. split; [|split; [|split]].
    + intros ex. intros. eapply app_tts_json_raises; eassumption.
    + intros data. intros. eapply app_tts_falsy; eassumption.
    + intros d Hbody.
      split; [intros; eapply app_tts_no_text; eassumption|].
      intros s Htext. split; [|split].
      * intros. eapply app_tts_blank; eassumption.
      * intros. eapply app_tts_too_long; eassumption.
      * intros. eapply app_tts_speed_rejected; eassumption.
    + intros r w' Hrun H400.
      apply app_tts_cases in Hrun
        as [[-> _]|(d & s & p' & n & _ & _ & _ & _ & _ & _ & _ & Hafter)];
        [reflexivity|].
      apply after_engine_file in Hafter
        as (_ & _ & _ & _ & [[H _]|(_ & _ & _ & -> & _)]).
      * rewrite H in H400. discriminate.
      * discriminate.
  - intros w. apply app_tts_not_initialized.
Qed.

Lemma tts_validation_order_witness :
  request_json (british_only two_chunk_engine body_blank)
    = JsonValue body_blank /\
  lookup (lit "text")
    [(lit "text", JStr (lit "   ")); (lit "accent", JStr (lit "klingon"))]
    = Some (JStr (lit "   ")) /\
  strip (lit "   ") = [] /\
  serve (KakoraServerLock.text_to_speech sample_env)
    (british_only two_chunk_engine body_blank)
    = (EmptyText, british_only two_chunk_engine body_blank).
Proof.
  split; [reflexivity|]. split; [reflexivity|]. split; [reflexivity|].
  destruct (tts_validation_order sample_env) as [Hmulti _].
  destruct (Hmulti (british_only two_chunk_engine body_blank))
    as (_ & _ & Hdict & _).
  destruct (Hdict _ eq_refl) as [_ Htext].
  destruct (Htext (lit "   ") eq_refl) as (Hblank & _).
  apply Hblank. reflexivity.
Defined.

(** C7 as the specification states it does not hold: with a speed of 9
    and an accent that is not loaded, the multi-voice [/tts] answers with
    the accent error, not with the speed error the stated order puts
    first; it has no rule on the speed. *)
Lemma accent_rule_without_speed_rule :
  speed_of [(lit "text", hello); (lit "speed", JNum (Fin 9));
            (lit "accent", JStr (lit "klingon"))] = JNum (Fin 9) /\
  out_of_range (Fin 9) = true /\
  fst (serve (KakoraServerLock.text_to_speech sample_env)
         (british_only two_chunk_engine body_klingon_fast))
    = UnknownAccentListing (JStr (lit "klingon")) [lit "british"] /\
  fst (serve (KakoraServerLock.text_to_speech sample_env)
         (british_only two_chunk_engine body_klingon_fast))
    <> SpeedOutOfRange.
Proof.
  repeat split; try reflexivity. vm_compute. discriminate.
Qed.

(* ================================================================== *)
(** * The speed rule *)
(* ================================================================== *)

Lemma out_of_range_iff (q : Q) :
  out_of_range (Fin q) = true <-> (q < 1 # 2 \/ 2 < q)%Q.
Proof.
  unfold out_of_range, num_lt, Qltb, Qlt.
  rewrite orb_true_iff, !Z.ltb_lt. reflexivity.
Qed.

(** What the multi-voice handlers do with the speed of a request they
    accept: it is the speed of the engine call, whatever its value. *)
Lemma multi_voice_speed_unchecked
    (e : env) (w : world KakoraServerLock.pool) d s a p :
  request_json w = JsonValue (JDict d) ->
  lookup (lit "text") d = Some (JStr s) ->
  strip s <> [] ->
  accent_of d = JStr a -> lookup a (globals w) = Some p ->
  (Z.of_nat (length s) <= 5000 ->
   engine_log (snd (serve (KakoraServerLock.text_to_speech e) w))
     = mkCall p (JStr s) (voice_of d) (speed_of d) :: engine_log w) /\
  engine_log (snd (serve (KakoraServerLock.text_to_speech_base64 e) w))
    = mkCall p (JStr s) (voice_of d) (speed_of d) :: engine_log w.
Proof.
  intros Hbody Htext Hsaid Haccent Hpool. split.
  - intros Hlen.
    pose proof (ksl_tts_accepted e w d Hbody s Htext Hsaid Hlen a Haccent
                  p Hpool) as Hafter.
    now apply after_engine_file in Hafter as (Hcall & _).
  - pose proof (ksl_b64_accepted e w d Hbody s Htext Hsaid a Haccent
                  p Hpool) as Hafter.
    now apply after_engine_base64 in Hafter as (-> & _).
Qed.

(** C1, as the code has it.  On the single-voice [/tts], for a request
    that passed the rules before (engine loaded, text present, not blank,
    at most 5000 characters): a speed below 0.5 or above 2.0 is answered
    by status 400 and [Speed must be between 0.5 and 2.0], with no engine
    call; any other number, 0.5 and 2.0 included, goes to the engine as it
    is.  In every synthesis handler a body without [speed] has the speed
    1.0: that is the speed of the engine call. *)
Theorem single_voice_speed_rule
    (e : env) (w : world App.slot) (p : Engine)
    (d : list (pystr * json)) (s : pystr) :
  globals w = Some p ->
  request_json w = JsonValue (JDict d) ->
  lookup (lit "text") d = Some (JStr s) ->
  strip s <> [] ->
  Z.of_nat (length s) <= 5000 ->
  (forall n,
      as_number (speed_of d) = Some n ->
      (out_of_range n = true ->
       serve (App.text_to_speech e) w = (SpeedOutOfRange, w)) /\
      (out_of_range n = false ->
       engine_log (snd (serve (App.text_to_speech e) w))
         = mkCall p (JStr s) (JStr App.VOICE) (speed_of d) :: engine_log w))
  /\
  (lookup (lit "speed") d = None ->
   speed_of d = JNum (Fin 1) /\
   engine_log (snd (serve (App.text_to_speech e) w))
     = mkCall p (JStr s) (JStr App.VOICE) (JNum (Fin 1)) :: engine_log w /\
   (forall (v : world KakoraServerLock.pool) a p',
       request_json v = JsonValue (JDict d) ->
       accent_of d = JStr a -> lookup a (globals v) = Some p' ->
       engine_log (snd (serve (KakoraServerLock.text_to_speech e) v))
         = mkCall p' (JStr s) (voice_of d) (JNum (Fin 1)) :: engine_log v /\
       engine_log
         (snd (serve (KakoraServerLock.text_to_speech_base64 e) v))
         = mkCall p' (JStr s) (voice_of d) (JNum (Fin 1)) :: engine_log v))
  /\
  (forall q, out_of_range (Fin q) = true <-> (q < 1 # 2 \/ 2 < q)%Q) /\
  out_of_range (Fin (1 # 2)) = false /\
  out_of_range (Fin 2) = false.
Proof.
  intros Hready Hbody Htext Hsaid Hlen.
  split; [|split; [|split; [|split; reflexivity]]].
  - intros n Hn. split; intros Hr.
    + eapply app_tts_speed_rejected; eassumption.
    + pose proof (app_tts_accepted e w p Hready d Hbody s Htext Hsaid Hlen
                    n Hn Hr) as Hafter.
      now apply after_engine_file in Hafter as (Hcall & _).
  - intros Hnone.
    assert (Hone : speed_of d = JNum (Fin 1))
      by (unfold speed_of, dict_get; now rewrite Hnone).
    split; [exact Hone|]. split.
    + pose proof (app_tts_accepted e w p Hready d Hbody s Htext Hsaid Hlen
                    (Fin 1)) as Hafter.
      rewrite Hone in Hafter. specialize (Hafter eq_refl eq_refl).
      now apply after_engine_file in Hafter as (Hcall & _).
    + intros v a p' Hv Ha Hp.
      destruct (multi_voice_speed_unchecked e v d s a p' Hv Htext Hsaid
                  Ha Hp) as [Htts Hb64].
      rewrite Hone in Htts, Hb64. split; [now apply Htts | exact Hb64].
  - apply out_of_range_iff.
Qed.

Lemma single_voice_speed_rule_witness :
  globals (single_voice two_chunk_engine (body_with_speed (49 # 100)))
    = Some two_chunk_engine /\
  request_json (single_voice two_chunk_engine (body_with_speed (49 # 100)))
    = JsonValue (JDict [(lit "text", hello);
                        (lit "speed", JNum (Fin (49 # 100)))]) /\
  lookup (lit "text")
    [(lit "text", hello); (lit "speed", JNum (Fin (49 # 100)))]
    = Some (JStr (lit "Hello world")) /\
  strip (lit "Hello world") <> [] /\
  Z.of_nat (length (lit "Hello world")) <= 5000 /\
  out_of_range (Fin (49 # 100)) = true /\
  serve (App.text_to_speech sample_env)
    (single_voice two_chunk_engine (body_with_speed (49 # 100)))
    = (SpeedOutOfRange,
       single_voice two_chunk_engine (body_with_speed (49 # 100))).
Proof.
  assert (Hsaid : strip (lit "Hello world") <> [])
    by (vm_compute; discriminate).
  assert (Hlen : Z.of_nat (length (lit "Hello world")) <= 5000)
    by (vm_compute; discriminate).
  repeat (split; [first [reflexivity | assumption]|]).
  destruct (single_voice_speed_rule sample_env
              (single_voice two_chunk_engine (body_with_speed (49 # 100)))
              two_chunk_engine
              [(lit "text", hello); (lit "speed", JNum (Fin (49 # 100)))]
              (lit "Hello world") eq_refl eq_refl eq_refl Hsaid Hlen)
    as (Hrule & _).
  destruct (Hrule (Fin (49 # 100)) eq_refl) as (Hreject & _).
  apply Hreject. reflexivity.
Defined.

(** C1 as the specification states it does not hold: the multi-voice
    server has no rule on the speed.  A speed of 3.0 goes through [/tts]
    and [/tts_base64] to the engine and the request is answered with
    audio. *)
Lemma multi_voice_accepts_any_speed :
  speed_of [(lit "text", hello); (lit "speed", JNum (Fin 3))]
    = JNum (Fin 3) /\
  out_of_range (Fin 3) = true /\
  status (fst (serve (KakoraServerLock.text_to_speech sample_env)
                 (british_only two_chunk_engine (body_with_speed 3)))) = 200
  /\
  engine_log (snd (serve (KakoraServerLock.text_to_speech sample_env)
                     (british_only two_chunk_engine (body_with_speed 3))))
    = [mkCall two_chunk_engine hello (JStr (lit "af_heart")) (JNum (Fin 3))]
  /\
  status (fst (serve (KakoraServerLock.text_to_speech_base64 sample_env)
                 (british_only two_chunk_engine (body_with_speed 3)))) = 200
  /\
  engine_log (snd (serve (KakoraServerLock.text_to_speech_base64 sample_env)
                     (british_only two_chunk_engine (body_with_speed 3))))
    = [mkCall two_chunk_engine hello (JStr (lit "af_heart")) (JNum (Fin 3))].
Proof. repeat split; reflexivity. Qed.

(* ================================================================== *)
(** * The rule on the length of the text *)
(* ================================================================== *)

(** The rule where the code has it.  On [/tts] of both servers, a text
    that is not blank and has more than 5000 characters, counted before any
    stripping, is answered by status 400 and
    [Text too long (max 5000 characters)] with no engine call; a text of
    at most 5000 characters, so of exactly 5000, passes the rule: when
    the later rule passes too (a loaded accent, a speed in range) the
    engine is called with the whole text. *)
Theorem tts_text_length_rule
    (e : env) (d : list (pystr * json)) (s : pystr) :
  lookup (lit "text") d = Some (JStr s) ->
  strip s <> [] ->
  (forall w : world KakoraServerLock.pool,
      request_json w = JsonValue (JDict d) ->
      (5000 < Z.of_nat (length s) ->
       serve (KakoraServerLock.text_to_speech e) w = (TextTooLong, w)) /\
      (Z.of_nat (length s) <= 5000 ->
       forall a p,
         accent_of d = JStr a -> lookup a (globals w) = Some p ->
         engine_log (snd (serve (KakoraServerLock.text_to_speech e) w))
           = mkCall p (JStr s) (voice_of d) (speed_of d) :: engine_log w))
  /\
  (forall (w : world App.slot) p,
      globals w = Some p ->
      request_json w = JsonValue (JDict d) ->
      (5000 < Z.of_nat (length s) ->
       serve (App.text_to_speech e) w = (TextTooLong, w)) /\
      (Z.of_nat (length s) <= 5000 ->
       forall n,
         as_number (speed_of d) = Some n -> out_of_range n = false ->
         engine_log (snd (serve (App.text_to_speech e) w))
           = mkCall p (JStr s) (JStr App.VOICE) (speed_of d)
               :: engine_log w)).
Proof.
  intros Htext Hsaid. split.
  - intros w Hbody. split.
    + intros Hlong. eapply ksl_tts_too_long; eassumption.
    + intros Hlen a p Haccent Hpool.
      pose proof (ksl_tts_accepted e w d Hbody s Htext Hsaid Hlen a Haccent
                    p Hpool) as Hafter.
      now apply after_engine_file in Hafter as (Hcall & _).
  - intros w p Hready Hbody. split.
    + intros Hlong. eapply app_tts_too_long; eassumption.
    + intros Hlen n Hn Hr.
      pose proof (app_tts_accepted e w p Hready d Hbody s Htext Hsaid Hlen
                    n Hn Hr) as Hafter.
      now apply after_engine_file in Hafter as (Hcall & _).
Qed.

Lemma tts_text_length_rule_witness :
  lookup (lit "text") [(lit "text", JStr longest_text)]
    = Some (JStr longest_text) /\
  strip longest_text <> [] /\
  Z.of_nat (length longest_text) = 5000 /\
  engine_log (snd (serve (KakoraServerLock.text_to_speech sample_env)
                     (british_only two_chunk_engine
                        (body_of_text longest_text))))
    = [mkCall two_chunk_engine (JStr longest_text)
         (JStr (lit "af_heart")) (JNum (Fin 1))].
Proof.
  assert (Hsaid : strip longest_text <> [])
    by (vm_compute; discriminate).
  split; [reflexivity|]. split; [exact Hsaid|].
  split; [vm_compute; reflexivity|].
  destruct (tts_text_length_rule sample_env
              [(lit "text", JStr longest_text)] longest_text
              eq_refl Hsaid) as (Hmulti & _).
  destruct (Hmulti (british_only two_chunk_engine
                      (body_of_text longest_text)) eq_refl)
    as (_ & Hshort).
  apply (Hshort ltac:(vm_compute; discriminate) (lit "british")
           two_chunk_engine eq_refl eq_refl).
Defined.

(** C2.  The multi-voice [/tts_base64] has no rule on the length, which
    its sibling [/tts] has.  For a request whose text is a string that is
    not blank and is longer than 5000 characters, with an accent that is
    loaded: [/tts] answers [Text too long (max 5000 characters)] with
    status 400 and calls no engine; [/tts_base64] calls the engine with
    the whole text, and its answer is not that error and not of status
    400. *)
Theorem base64_has_no_length_rule
    (e : env) (w : world KakoraServerLock.pool)
    (d : list (pystr * json)) (s a : pystr) (p : Engine) :
  request_json w = JsonValue (JDict d) ->
  lookup (lit "text") d = Some (JStr s) ->
  strip s <> [] ->
  5000 < Z.of_nat (length s) ->
  accent_of d = JStr a ->
  lookup a (globals w) = Some p ->
  serve (KakoraServerLock.text_to_speech e) w = (TextTooLong, w) /\
  engine_log (snd (serve (KakoraServerLock.text_to_speech_base64 e) w))
    = mkCall p (JStr s) (voice_of d) (speed_of d) :: engine_log w /\
  fst (serve (KakoraServerLock.text_to_speech_base64 e) w) <> TextTooLong /\
  status (fst (serve (KakoraServerLock.text_to_speech_base64 e) w)) <> 400.
Proof.
  intros Hbody Htext Hsaid Hlong Haccent Hpool.
  split; [eapply ksl_tts_too_long; eassumption|].
  pose proof (ksl_b64_accepted e w d Hbody s Htext Hsaid a Haccent p Hpool)
    as Hafter.
  pose proof (after_engine_base64 _ _ _ _ _ _ _ Hafter)
    as (Hw & _ & Hstatus).
  assert (Hnot400 :
            status (fst (serve (KakoraServerLock.text_to_speech_base64 e) w))
            <> 400).
  { destruct Hstatus as [H|(segs & _ & _ & H)]; rewrite H; discriminate. }
  split; [now rewrite Hw|]. split; [|exact Hnot400].
  intros H. apply Hnot400. now rewrite H.
Qed.

(** A text of 5001 letters with the British engine loaded: [/tts]
    answers [Text too long], [/tts_base64] sends all of it to the
    engine. *)
Lemma base64_has_no_length_rule_witness :
  lookup (lit "text") [(lit "text", JStr long_text)]
    = Some (JStr long_text) /\
  strip long_text <> [] /\
  5000 < Z.of_nat (length long_text) /\
  serve (KakoraServerLock.text_to_speech sample_env)
    (british_only two_chunk_engine (body_of_text long_text))
    = (TextTooLong, british_only two_chunk_engine (body_of_text long_text)) /\
  engine_log (snd (serve (KakoraServerLock.text_to_speech_base64 sample_env)
                     (british_only two_chunk_engine
                        (body_of_text long_text))))
    = [mkCall two_chunk_engine (JStr long_text)
         (JStr (lit "af_heart")) (JNum (Fin 1))] /\
  status (fst (serve (KakoraServerLock.text_to_speech_base64 sample_env)
                 (british_only two_chunk_engine (body_of_text long_text))))
    <> 400.
Proof.
  assert (Hsaid : strip long_text <> [])
    by (vm_compute; discriminate).
  assert (Hlong : 5000 < Z.of_nat (length long_text))
    by (vm_compute; reflexivity).
  split; [reflexivity|]. split; [exact Hsaid|]. split; [exact Hlong|].
  destruct (base64_has_no_length_rule sample_env
              (british_only two_chunk_engine (body_of_text long_text))
              [(lit "text", JStr long_text)] long_text (lit "british")
              two_chunk_engine eq_refl eq_refl Hsaid Hlong eq_refl eq_refl)
    as (Htts & Hcall & _ & Hstatus).
  split; [exact Htts|]. split; [exact Hcall | exact Hstatus].
Defined.

(* ================================================================== *)
(** * The accent rule *)
(* ================================================================== *)

Lemma lookup_none_iff {V : Type} (k : pystr) (d : list (pystr * V)) :
  lookup k d = None <-> ~ In k (keys d).
Proof.
  induction d as [|[k' v] d IH]; simpl.
  - split; [intros _ [] | reflexivity].
  - destruct (pystr_eqb k k') eqn:E.
    + apply pystr_eqb_eq in E. subst k'.
      split; [discriminate | intros H; contradiction H; now left].
    + rewrite IH. split.
      * intros H [Hk|Hk]; [|now apply H].
        subst k'. now rewrite pystr_eqb_refl in E.
      * intros H Hk. apply H. now right.
Qed.

Lemma unknown_accent_text (a : pystr) (available : list pystr) :
  error_text (UnknownAccentListing (JStr a) available)
  = Some (lit "Accent " ++ dquote ++ a ++ dquote
          ++ lit " not available. Available: "
          ++ lit "[" ++ join (lit ", ") (map repr_key available) ++ lit "]").
Proof.
  unfold error_text, UnknownAccentListing, error_response.
  cbn [content render render_piece].
  now rewrite app_nil_r, <- !app_assoc.
Qed.

(** C3, as the code has it.  On the multi-voice [/tts] and [/tts_base64],
    for a request that passed the rules before (text present, not blank
    and, on [/tts], at most 5000 characters): an accent that is not a key
    of the pool is answered by status 400 with no engine call, and on
    [/tts] the message is [Accent "<accent>" not available. Available: ]
    followed by the list of the keys of the pool, in their order. *)
Theorem unknown_accent_rule
    (e : env) (w : world KakoraServerLock.pool)
    (d : list (pystr * json)) (s a : pystr) :
  request_json w = JsonValue (JDict d) ->
  lookup (lit "text") d = Some (JStr s) ->
  strip s <> [] ->
  accent_of d = JStr a ->
  ~ In a (keys (globals w)) ->
  (Z.of_nat (length s) <= 5000 ->
   serve (KakoraServerLock.text_to_speech e) w
     = (UnknownAccentListing (JStr a) (keys (globals w)), w)) /\
  (status (fst (serve (KakoraServerLock.text_to_speech_base64 e) w)) = 400 /\
   snd (serve (KakoraServerLock.text_to_speech_base64 e) w) = w) /\
  error_text (UnknownAccentListing (JStr a) (keys (globals w)))
    = Some (lit "Accent " ++ dquote ++ a ++ dquote
            ++ lit " not available. Available: "
            ++ lit "[" ++ join (lit ", ") (map repr_key (keys (globals w)))
            ++ lit "]").
Proof.
  intros Hbody Htext Hsaid Haccent Hnot.
  apply lookup_none_iff in Hnot.
  split; [|split].
  - intros Hlen. eapply ksl_tts_unknown_accent; eassumption.
  - rewrite (ksl_b64_unknown_accent e w d Hbody s Htext Hsaid a Haccent Hnot).
    split; reflexivity.
  - apply unknown_accent_text.
Qed.

Lemma unknown_accent_rule_witness :
  request_json (british_only two_chunk_engine body_klingon)
    = JsonValue (JDict [(lit "text", hello);
                        (lit "accent", JStr (lit "klingon"))]) /\
  lookup (lit "text")
    [(lit "text", hello); (lit "accent", JStr (lit "klingon"))]
    = Some (JStr (lit "Hello world")) /\
  strip (lit "Hello world") <> [] /\
  accent_of [(lit "text", hello); (lit "accent", JStr (lit "klingon"))]
    = JStr (lit "klingon") /\
  ~ In (lit "klingon")
      (keys (globals (british_only two_chunk_engine body_klingon))) /\
  Z.of_nat (length (lit "Hello world")) <= 5000 /\
  serve (KakoraServerLock.text_to_speech sample_env)
    (british_only two_chunk_engine body_klingon)
    = (UnknownAccentListing (JStr (lit "klingon")) [lit "british"],
       british_only two_chunk_engine body_klingon).
Proof.
  assert (Hsaid : strip (lit "Hello world") <> [])
    by (vm_compute; discriminate).
  assert (Hnot : ~ In (lit "klingon")
                     (keys (globals (british_only two_chunk_engine
                                       body_klingon))))
    by (vm_compute; intros [H|[]]; discriminate H).
  assert (Hlen : Z.of_nat (length (lit "Hello world")) <= 5000)
    by (vm_compute; discriminate).
  repeat (split; [first [reflexivity | assumption]|]).
  apply (proj1 (unknown_accent_rule sample_env
                  (british_only two_chunk_engine body_klingon)
                  [(lit "text", hello); (lit "accent", JStr (lit "klingon"))]
                  (lit "Hello world") (lit "klingon")
                  eq_refl eq_refl Hsaid eq_refl Hnot)).
  exact Hlen.
Defined.

(** C3 as the specification states it does not hold.  With only the
    British engine loaded, the message of [/tts_base64] for the accent
    [klingon] names that accent and no loaded one; and a request without
    [text] is answered by [Missing text parameter] whatever its accent. *)
Lemma base64_accent_error_lists_nothing :
  keys (globals (british_only two_chunk_engine body_klingon))
    = [lit "british"] /\
  error_text (fst (serve (KakoraServerLock.text_to_speech_base64 sample_env)
                     (british_only two_chunk_engine body_klingon)))
    = Some (lit "Accent " ++ dquote ++ lit "klingon" ++ dquote
            ++ lit " not available") /\
  fst (serve (KakoraServerLock.text_to_speech_base64 sample_env)
         (british_only two_chunk_engine body_klingon))
    <> UnknownAccentListing (JStr (lit "klingon")) [lit "british"] /\
  accent_of [(lit "accent", JStr (lit "klingon"))] = JStr (lit "klingon") /\
  fst (serve (KakoraServerLock.text_to_speech sample_env)
         (british_only two_chunk_engine body_no_text))
    = MissingField.
Proof.
  split; [reflexivity|]. split; [reflexivity|].
  split; [vm_compute; discriminate|]. split; reflexivity.
Qed.

(* ================================================================== *)
(** * The British endpoint *)
(* ================================================================== *)

(** What [/tts/british] does with a body that is a non-empty object: the
    accent of the cached body is set, then the assignment to
    [request.json] raises and the handler answers 500. *)
Lemma british_tts_on_object
    (e : env) (w : world KakoraServerLock.pool) (d : list (pystr * json)) :
  request_json w = JsonValue (JDict d) -> d <> [] ->
  serve (KakoraServerLock.british_tts e) w
    = (error_response [StrExn (SetAttributeError "json")] 500,
       mkWorld (globals w)
         (JsonValue (JDict (setitem (lit "accent") (JStr (lit "british")) d)))
         (files w) (engine_log w)).
Proof.
  intros Hbody Hd. apply is_nil_false in Hd.
  destruct w as [g rj fs lg]. simpl in Hbody. subst rj.
  unfold KakoraServerLock.british_tts. follow. reflexivity.
Qed.

(** The body [/tts/british] means to hand on: its accent is [british],
    its other fields are those of the request. *)
Lemma forced_accent_body (d : list (pystr * json)) :
  accent_of (setitem (lit "accent") (JStr (lit "british")) d)
    = JStr (lit "british") /\
  (forall k, pystr_eqb k (lit "accent") = false ->
     lookup k (setitem (lit "accent") (JStr (lit "british")) d) = lookup k d).
Proof.
  split.
  - unfold accent_of, dict_get. now rewrite lookup_setitem_same.
  - intros k Hk. now apply lookup_setitem_other.
Qed.

(** No request to [/tts/british] is answered with audio. *)
Lemma british_tts_never_succeeds (e : env) (w : world KakoraServerLock.pool) :
  status (fst (serve (KakoraServerLock.british_tts e) w)) = 500.
Proof.
  destruct (serve (KakoraServerLock.british_tts e) w) as [r w'] eqn:Hrun.
  now apply british_tts_cases in Hrun.
Qed.

(** C4, where the code departs from it.  For the body
    [{"text": "Hello world"}] and a pool with the British engine,
    [/tts/british] answers 500 with the text of the exception raised by
    [request.json = data] and calls no engine, while [/tts] with the
    accent of that body set to [british] answers 200 with the audio. *)
Theorem british_tts_fails_on_valid_request :
  serve (KakoraServerLock.british_tts sample_env)
    (british_only two_chunk_engine body_hello)
    = (error_response [StrExn (SetAttributeError "json")] 500,
       british_only two_chunk_engine
         (JDict [(lit "text", hello);
                 (lit "accent", JStr (lit "british"))])) /\
  setitem (lit "accent") (JStr (lit "british")) [(lit "text", hello)]
    = [(lit "text", hello); (lit "accent", JStr (lit "british"))] /\
  fst (serve (KakoraServerLock.text_to_speech sample_env)
         (british_only two_chunk_engine
            (JDict [(lit "text", hello);
                    (lit "accent", JStr (lit "british"))])))
    = wav_attachment sample_env (Fmt (JStr (lit "british"))) /\
  status (wav_attachment sample_env (Fmt (JStr (lit "british")))) = 200.
Proof. repeat split; reflexivity. Qed.

(* ================================================================== *)
(** * Start-up *)
(* ================================================================== *)

Lemma initialize_pipelines_run
    (KPipeline : KakoraServerLock.loader) (w : world KakoraServerLock.pool) :
  globals w = [] ->
  KakoraServerLock.initialize_pipelines KPipeline w
    = (Value tt,
       mkWorld (loaded_accents KPipeline) (request_json w) (files w)
         (engine_log w)).
Proof.
  intros Hg. destruct w as [g rj fs lg]. simpl in Hg. subst g.
  unfold KakoraServerLock.initialize_pipelines, loaded_accents,
    KakoraServerLock.accent_configs, KakoraServerLock.load_each,
    KakoraServerLock.construct, KakoraServerLock.set_pipeline,
    bind, try_except, ret, raise, flat_map.
  cbn [globals request_json files engine_log].
  destruct (KPipeline (lit "b") _); destruct (KPipeline (lit "a") _);
    destruct (KPipeline (lit "e") _); destruct (KPipeline (lit "f") _);
    destruct (KPipeline (lit "i") _); reflexivity.
Qed.

(** Case analysis on what the constructor gives for the five languages. *)
Ltac each_language KPipeline :=
  destruct (KPipeline (lit "b") (lit "hexgrad/Kokoro-82M"));
  destruct (KPipeline (lit "a") (lit "hexgrad/Kokoro-82M"));
  destruct (KPipeline (lit "e") (lit "hexgrad/Kokoro-82M"));
  destruct (KPipeline (lit "f") (lit "hexgrad/Kokoro-82M"));
  destruct (KPipeline (lit "i") (lit "hexgrad/Kokoro-82M")).





(** X2. After start-up the listing endpoints show exactly what loaded:
    [/health] gives the keys of the loaded accents in the order of the
    configuration and calls the server healthy even when none loaded;
    [/accents] gives the configured name and language code of each loaded
    accent and of no other, and names [british] as the default whether or
    not the British engine loaded. *)
Theorem listings_show_loaded_accents
    (KPipeline : KakoraServerLock.loader) (e : env)
    (w : world KakoraServerLock.pool) :
  globals w = loaded_accents KPipeline ->
  status (fst (serve (KakoraServerLock.health_check e) w)) = 200 /\
  field "status" (fst (serve (KakoraServerLock.health_check e) w))
    = Some (RJ (JStr (lit "healthy"))) /\
  field "available_accents" (fst (serve (KakoraServerLock.health_check e) w))
    = Some (RJ (JList (map JStr
         (filter (fun k => is_some (lookup k (loaded_accents KPipeline)))
            (keys KakoraServerLock.accent_configs))))) /\
  field "accents" (fst (serve (KakoraServerLock.get_accents e) w))
    = Some (RJ (JDict
         (filter (fun ki => is_some (lookup (fst ki)
                                       (loaded_accents KPipeline)))
            KakoraServerLock.accent_info))) /\
  field "default" (fst (serve (KakoraServerLock.get_accents e) w))
    = Some (RJ (JStr (lit "british"))).
Proof.
  intros Hg. destruct w as [g rj fs lg]. simpl in Hg. subst g.
  unfold field, serve, KakoraServerLock.health_check,
    KakoraServerLock.get_accents, KakoraServerLock.get_pipelines,
    bind, return_.
  cbn [globals fst content status].
  split; [reflexivity|]. split; [reflexivity|].
  unfold loaded_accents, KakoraServerLock.accent_info,
    KakoraServerLock.accent_configs.
  cbn [flat_map app].
  each_language KPipeline; repeat split; reflexivity.
Qed.

Lemma listings_show_loaded_accents_witness :
  globals (mkWorld (loaded_accents nothing_loads) (JsonValue JNull) [] [])
    = loaded_accents nothing_loads /\
  field "available_accents"
    (fst (serve (KakoraServerLock.health_check sample_env)
            (mkWorld (loaded_accents nothing_loads) (JsonValue JNull)
               [] [])))
    = Some (RJ (JList [])) /\
  field "default"
    (fst (serve (KakoraServerLock.get_accents sample_env)
            (mkWorld (loaded_accents nothing_loads) (JsonValue JNull)
               [] [])))
    = Some (RJ (JStr (lit "british"))).
Proof.
  split; [reflexivity|].
  destruct (listings_show_loaded_accents nothing_loads sample_env
              (mkWorld (loaded_accents nothing_loads) (JsonValue JNull)
                 [] []) eq_refl)
    as (_ & _ & Hhealth & _ & Hdefault).
  split; [exact Hhealth | exact Hdefault].
Defined.



(* ================================================================== *)
(** * Errors at the boundary of a handler *)
(* ================================================================== *)









(** X6. A body the parser rejects (when [request.get_json()] raises) is
    answered by status 500 with the text of the parser's exception, not
    by a 400: in the three multi-voice synthesis handlers always, in the
    single-voice [/tts] once the engine is loaded.  Nothing else
    happens. *)
Theorem unparsable_body_is_a_server_error (e : env) (ex : exn) :
  (forall w : world KakoraServerLock.pool,
      request_json w = JsonRaises ex ->
      serve (KakoraServerLock.text_to_speech e) w
        = (error_response [StrExn ex] 500, w) /\
      serve (KakoraServerLock.british_tts e) w
        = (error_response [StrExn ex] 500, w) /\
      serve (KakoraServerLock.text_to_speech_base64 e) w
        = (error_response [StrExn ex] 500, w)) /\
  (forall (w : world App.slot) p,
      globals w = Some p ->
      request_json w = JsonRaises ex ->
      serve (App.text_to_speech e) w = (error_response [StrExn ex] 500, w)).
Proof.
  split.
  - intros [g rj fs lg] Hj. simpl in Hj. subst rj. repeat split.
  - intros [g rj fs lg] p Hg Hj. simpl in Hg, Hj. subst g rj. reflexivity.
Qed.

Lemma unparsable_body_is_a_server_error_witness :
  request_json (mkWorld [(lit "british", two_chunk_engine)]
                  (JsonRaises (Raised (lit "400 Bad Request"))) [] [])
    = JsonRaises (Raised (lit "400 Bad Request")) /\
  status (fst (serve (KakoraServerLock.text_to_speech sample_env)
                 (mkWorld [(lit "british", two_chunk_engine)]
                    (JsonRaises (Raised (lit "400 Bad Request"))) [] [])))
    = 500.
Proof.
  split; [reflexivity|].
  rewrite (proj1 (proj1 (unparsable_body_is_a_server_error sample_env
                           (Raised (lit "400 Bad Request")))
                    (mkWorld [(lit "british", two_chunk_engine)]
                       (JsonRaises (Raised (lit "400 Bad Request"))) [] [])
                    eq_refl)).
  reflexivity.
Defined.

(** X7. A [text] that is not a string (a number, [null], a list, an
    object, a truth value) is not a validation error: [text.strip()]
    raises and the handler answers status 500, with no engine call, in
    the three synthesis handlers. *)
Theorem text_of_wrong_type_is_a_server_error
    (e : env) (d : list (pystr * json)) (v : json) :
  lookup (lit "text") d = Some v ->
  is_string v = false ->
  (forall w : world KakoraServerLock.pool,
      request_json w = JsonValue (JDict d) ->
      serve (KakoraServerLock.text_to_speech e) w
        = (error_response [StrExn (AttributeError v "strip")] 500, w) /\
      serve (KakoraServerLock.text_to_speech_base64 e) w
        = (error_response [StrExn (AttributeError v "strip")] 500, w)) /\
  (forall (w : world App.slot) p,
      globals w = Some p ->
      request_json w = JsonValue (JDict d) ->
      serve (App.text_to_speech e) w
        = (error_response [StrExn (AttributeError v "strip")] 500, w)).
Proof.
  intros Htext Hv. pose proof (has_text_not_empty _ _ _ Htext) as Hd.
  split.
  - intros [g rj fs lg] Hj. simpl in Hj. subst rj. split.
    + unfold KakoraServerLock.text_to_speech. follow.
      destruct v; try discriminate Hv; reflexivity.
    + unfold KakoraServerLock.text_to_speech_base64. follow.
      destruct v; try discriminate Hv; reflexivity.
  - intros [g rj fs lg] p Hg Hj. simpl in Hg, Hj. subst g rj.
    unfold App.text_to_speech. follow.
    destruct v; try discriminate Hv; reflexivity.
Qed.

Lemma text_of_wrong_type_is_a_server_error_witness :
  lookup (lit "text") [(lit "text", JNum (Fin 5))] = Some (JNum (Fin 5)) /\
  is_string (JNum (Fin 5)) = false /\
  serve (KakoraServerLock.text_to_speech sample_env)
    (british_only two_chunk_engine (JDict [(lit "text", JNum (Fin 5))]))
    = (error_response [StrExn (AttributeError (JNum (Fin 5)) "strip")] 500,
       british_only two_chunk_engine (JDict [(lit "text", JNum (Fin 5))])).
Proof.
  split; [reflexivity|]. split; [reflexivity|].
  apply (proj1 (proj1 (text_of_wrong_type_is_a_server_error sample_env
                         [(lit "text", JNum (Fin 5))] (JNum (Fin 5))
                         eq_refl eq_refl)
                  (british_only two_chunk_engine
                     (JDict [(lit "text", JNum (Fin 5))])) eq_refl)).
Defined.

(** X8. A body that is true but not an object.  A number or [true]
    cannot be searched for a key: status 500.  A list that has ['text']
    among its elements, or a string in which [text] occurs, passes the
    test for the field and then cannot be indexed by it: status 500.  Any
    other list or string is a body without text: status 400 and
    [Missing text parameter].  The same in the three synthesis
    handlers. *)
Theorem body_that_is_no_object (e : env) (data : json) :
  truthy data = true ->
  is_object data = false ->
  (forall w : world KakoraServerLock.pool,
      request_json w = JsonValue data ->
      serve (KakoraServerLock.text_to_speech e) w
        = (non_object_reply data, w) /\
      serve (KakoraServerLock.text_to_speech_base64 e) w
        = (non_object_reply data, w)) /\
  (forall (w : world App.slot) p,
      globals w = Some p ->
      request_json w = JsonValue data ->
      serve (App.text_to_speech e) w = (non_object_reply data, w)).
Proof.
  intros Ht Hobj. split.
  - intros [g rj fs lg] Hj. simpl in Hj. subst rj.
    destruct data as [ |b|n|s|l|d]; try discriminate Hobj;
      try discriminate Ht; simpl in Ht.
    + subst b. split; reflexivity.
    + apply negb_true_iff in Ht. split.
      * unfold KakoraServerLock.text_to_speech. unfold_ops.
        rewrite Ht. reflexivity.
      * unfold KakoraServerLock.text_to_speech_base64. unfold_ops.
        rewrite Ht. reflexivity.
    + unfold non_object_reply. split.
      * unfold KakoraServerLock.text_to_speech. unfold_ops.
        apply negb_true_iff in Ht. rewrite Ht. unfold_ops.
        destruct (substring_in (lit "text") s); reflexivity.
      * unfold KakoraServerLock.text_to_speech_base64. unfold_ops.
        apply negb_true_iff in Ht. rewrite Ht. unfold_ops.
        destruct (substring_in (lit "text") s); reflexivity.
    + unfold non_object_reply. split.
      * unfold KakoraServerLock.text_to_speech. unfold_ops.
        apply negb_true_iff in Ht. rewrite Ht. unfold_ops.
        destruct (existsb (str_equals (lit "text")) l); reflexivity.
      * unfold KakoraServerLock.text_to_speech_base64. unfold_ops.
        apply negb_true_iff in Ht. rewrite Ht. unfold_ops.
        destruct (existsb (str_equals (lit "text")) l); reflexivity.
  - intros [g rj fs lg] p Hg Hj. simpl in Hg, Hj. subst g rj.
    destruct data as [ |b|n|s|l|d]; try discriminate Hobj;
      try discriminate Ht; simpl in Ht.
    + subst b. reflexivity.
    + apply negb_true_iff in Ht.
      unfold App.text_to_speech. unfold_ops. rewrite Ht. reflexivity.
    + unfold non_object_reply, App.text_to_speech. unfold_ops.
      apply negb_true_iff in Ht. rewrite Ht. unfold_ops.
      destruct (substring_in (lit "text") s); reflexivity.
    + unfold non_object_reply, App.text_to_speech. unfold_ops.
      apply negb_true_iff in Ht. rewrite Ht. unfold_ops.
      destruct (existsb (str_equals (lit "text")) l); reflexivity.
Qed.

Lemma body_that_is_no_object_witness :
  truthy (JList [JStr (lit "text")]) = true /\
  is_object (JList [JStr (lit "text")]) = false /\
  status (fst (serve (KakoraServerLock.text_to_speech sample_env)
                 (british_only two_chunk_engine
                    (JList [JStr (lit "text")])))) = 500 /\
  fst (serve (KakoraServerLock.text_to_speech sample_env)
         (british_only two_chunk_engine (JList [JStr (lit "speech")])))
    = MissingField.
Proof.
  split; [reflexivity|]. split; [reflexivity|]. split.
  - rewrite (proj1 (proj1 (body_that_is_no_object sample_env
                             (JList [JStr (lit "text")]) eq_refl eq_refl)
                      (british_only two_chunk_engine
                         (JList [JStr (lit "text")])) eq_refl)).
    reflexivity.
  - rewrite (proj1 (proj1 (body_that_is_no_object sample_env
                             (JList [JStr (lit "speech")]) eq_refl eq_refl)
                      (british_only two_chunk_engine
                         (JList [JStr (lit "speech")])) eq_refl)).
    reflexivity.
Defined.

(* ================================================================== *)
(** * The empty-text answer *)
(* ================================================================== *)

(** Rewrites a run with the facts at hand. *)
Ltac follow_in H :=
  unfold_ops_in H;
  repeat (match goal with
          | Hx : ?x = _ |- _ =>
              match type of H with
              | context [match x with _ => _ end] => rewrite Hx in H
              end
          end; unfold_ops_in H).

Ltac differs := let Heq := fresh in intros Heq; vm_compute in Heq; discriminate Heq.

Lemma ksl_tts_said (e : env) (w : world KakoraServerLock.pool) d s :
  request_json w = JsonValue (JDict d) ->
  lookup (lit "text") d = Some (JStr s) ->
  strip s <> [] ->
  fst (serve (KakoraServerLock.text_to_speech e) w) <> EmptyText.
Proof.
  intros Hbody Htext Hs%not_blank_test.
  pose proof (has_text_not_empty _ _ _ Htext) as Hd.
  destruct w as [g rj fs lg]. simpl in Hbody. subst rj.
  destruct (serve _ _) as [r w'] eqn:H. simpl.
  unfold KakoraServerLock.text_to_speech in H. follow_in H.
  explore H; inversion H; subst; differs.
Qed.

Lemma ksl_b64_said (e : env) (w : world KakoraServerLock.pool) d s :
  request_json w = JsonValue (JDict d) ->
  lookup (lit "text") d = Some (JStr s) ->
  strip s <> [] ->
  fst (serve (KakoraServerLock.text_to_speech_base64 e) w) <> EmptyText.
Proof.
  intros Hbody Htext Hs%not_blank_test.
  pose proof (has_text_not_empty _ _ _ Htext) as Hd.
  destruct w as [g rj fs lg]. simpl in Hbody. subst rj.
  destruct (serve _ _) as [r w'] eqn:H. simpl.
  unfold KakoraServerLock.text_to_speech_base64 in H. follow_in H.
  explore H; inversion H; subst; differs.
Qed.

Lemma app_tts_said (e : env) (w : world App.slot) p d s :
  globals w = Some p ->
  request_json w = JsonValue (JDict d) ->
  lookup (lit "text") d = Some (JStr s) ->
  strip s <> [] ->
  fst (serve (App.text_to_speech e) w) <> EmptyText.
Proof.
  intros Hready Hbody Htext Hs%not_blank_test.
  pose proof (has_text_not_empty _ _ _ Htext) as Hd.
  destruct w as [g rj fs lg]. simpl in Hbody, Hready. subst rj g.
  destruct (serve _ _) as [r w'] eqn:H. simpl.
  unfold App.text_to_speech in H. follow_in H.
  explore H; inversion H; subst; differs.
Qed.

(** X9. For a body whose [text] is a string, the answer is
    [Text cannot be empty] exactly when every character of the text is
    white space (the empty text included), whatever the other fields
    are: in the three synthesis handlers. *)
Theorem empty_text_iff_white_space
    (e : env) (d : list (pystr * json)) (s : pystr) :
  lookup (lit "text") d = Some (JStr s) ->
  (forall w : world KakoraServerLock.pool,
      request_json w = JsonValue (JDict d) ->
      (fst (serve (KakoraServerLock.text_to_speech e) w) = EmptyText
       <-> forallb is_space s = true) /\
      (fst (serve (KakoraServerLock.text_to_speech_base64 e) w) = EmptyText
       <-> forallb is_space s = true)) /\
  (forall (w : world App.slot) p,
      globals w = Some p ->
      request_json w = JsonValue (JDict d) ->
      (fst (serve (App.text_to_speech e) w) = EmptyText
       <-> forallb is_space s = true)).
Proof.
  intros Htext. split.
  - intros w Hbody. split; rewrite <- strip_nil_iff; split.
    + intros Hr. destruct (strip s) eqn:Hs; [reflexivity|].
      exfalso. apply (ksl_tts_said e w d s Hbody Htext); [|exact Hr].
      rewrite Hs. discriminate.
    + intros Hs. now rewrite (ksl_tts_blank e w d Hbody s Htext Hs).
    + intros Hr. destruct (strip s) eqn:Hs; [reflexivity|].
      exfalso. apply (ksl_b64_said e w d s Hbody Htext); [|exact Hr].
      rewrite Hs. discriminate.
    + intros Hs. now rewrite (ksl_b64_blank e w d Hbody s Htext Hs).
  - intros w p Hready Hbody. rewrite <- strip_nil_iff. split.
    + intros Hr. destruct (strip s) eqn:Hs; [reflexivity|].
      exfalso. apply (app_tts_said e w p d s Hready Hbody Htext); [|exact Hr].
      rewrite Hs. discriminate.
    + intros Hs. now rewrite (app_tts_blank e w p Hready d Hbody s Htext Hs).
Qed.

Lemma empty_text_iff_white_space_witness :
  lookup (lit "text")
    [(lit "text", JStr [9; 32; 160; 8195; 10]%N);
     (lit "accent", JStr (lit "klingon"))]
    = Some (JStr [9; 32; 160; 8195; 10]%N) /\
  forallb is_space [9; 32; 160; 8195; 10]%N = true /\
  fst (serve (KakoraServerLock.text_to_speech sample_env)
         (british_only two_chunk_engine
            (JDict [(lit "text", JStr [9; 32; 160; 8195; 10]%N);
                    (lit "accent", JStr (lit "klingon"))])))
    = EmptyText.
Proof.
  split; [reflexivity|]. split; [reflexivity|].
  apply (proj1 (proj1 (empty_text_iff_white_space sample_env
                         [(lit "text", JStr [9; 32; 160; 8195; 10]%N);
                          (lit "accent", JStr (lit "klingon"))]
                         [9; 32; 160; 8195; 10]%N eq_refl)
                  (british_only two_chunk_engine
                     (JDict [(lit "text", JStr [9; 32; 160; 8195; 10]%N);
                             (lit "accent", JStr (lit "klingon"))]))
                  eq_refl)).
  reflexivity.
Defined.

(* ================================================================== *)
(** * What a request asks of the engine and what it gets back *)
(* ================================================================== *)

Lemma lookup_some_in {V : Type} (k : pystr) (d : list (pystr * V)) v :
  lookup k d = Some v -> In k (keys d).
Proof.
  intros H. destruct (in_dec (list_eq_dec N.eq_dec) k (keys d)) as [Hin|Hout];
    [exact Hin|].
  apply lookup_none_iff in Hout. rewrite Hout in H. discriminate.
Qed.

(** X10. The audio of [/tts_base64] is the audio of [/tts]: whenever
    [/tts] answers a request with a file, [/tts_base64] answers the same
    request, in the same world, with status 200 and the base64 of the
    very bytes [/tts] wrote to its file, after the same engine call. *)
Theorem base64_carries_the_file_audio
    (e : env) (w : world KakoraServerLock.pool) r w' :
  serve (KakoraServerLock.text_to_speech e) w = (r, w') ->
  status r = 200 ->
  exists audio c,
    files w' = (tmp_name e, Some (WavOf audio 24000)) :: files w /\
    engine_log w' = c :: engine_log w /\
    status (fst (serve (KakoraServerLock.text_to_speech_base64 e) w)) = 200
    /\
    field "audio_base64"
      (fst (serve (KakoraServerLock.text_to_speech_base64 e) w))
      = Some (RBase64 (WavOf audio 24000)) /\
    engine_log (snd (serve (KakoraServerLock.text_to_speech_base64 e) w))
      = c :: engine_log w.
Proof.
  intros Hrun Hok.
  apply ksl_tts_cases in Hrun
    as [[_ [H|H]]|(d & s & a & p & Hbody & Htext & Hsaid & _ & Ha & Hp
                   & Hafter)];
    try (rewrite H in Hok; discriminate).
  apply after_engine_file in Hafter
    as (Hcall & _ & _ & _ & [[H _]|(segs & Hsegs & Hne & _ & Hfiles)]);
    [rewrite H in Hok; discriminate|].
  pose proof (ksl_b64_accepted e w d Hbody s Htext Hsaid a Ha p Hp) as Hb64.
  unfold after_engine in Hb64. rewrite Hsegs in Hb64.
  destruct segs as [|x segs]; [now contradiction Hne|].
  destruct Hb64 as [Hr Hw]. simpl in Hr, Hw.
  exists (final_audio (x :: segs)), (mkCall p (JStr s) (voice_of d) (speed_of d)).
  rewrite Hr, Hw. repeat split; assumption.
Qed.

Lemma base64_carries_the_file_audio_witness :
  status (fst (serve (KakoraServerLock.text_to_speech sample_env)
                 (british_only two_chunk_engine body_hello))) = 200 /\
  exists audio c,
    files (snd (serve (KakoraServerLock.text_to_speech sample_env)
                  (british_only two_chunk_engine body_hello)))
      = (tmp_name sample_env, Some (WavOf audio 24000))
          :: files (british_only two_chunk_engine body_hello) /\
    engine_log (snd (serve (KakoraServerLock.text_to_speech sample_env)
                       (british_only two_chunk_engine body_hello)))
      = c :: engine_log (british_only two_chunk_engine body_hello) /\
    status (fst (serve (KakoraServerLock.text_to_speech_base64 sample_env)
                   (british_only two_chunk_engine body_hello))) = 200 /\
    field "audio_base64"
      (fst (serve (KakoraServerLock.text_to_speech_base64 sample_env)
              (british_only two_chunk_engine body_hello)))
      = Some (RBase64 (WavOf audio 24000)) /\
    engine_log (snd (serve (KakoraServerLock.text_to_speech_base64
                              sample_env)
                       (british_only two_chunk_engine body_hello)))
      = c :: engine_log (british_only two_chunk_engine body_hello).
Proof.
  split; [reflexivity|].
  apply (base64_carries_the_file_audio sample_env
           (british_only two_chunk_engine body_hello) _ _
           (surjective_pairing _)).
  reflexivity.
Defined.

(** X11. A request makes at most one engine call, and the call is read
    off the request: the text is the [text] of the body as it came, not
    stripped.  Multi-voice: the engine is the pool's entry for the accent
    of the body ([british] when it has none), the voice and the speed are
    those of the body ([af_heart] and 1.0 when it has none).  Single
    voice: the engine is the loaded one and the voice is [af_heart]
    whatever the body says.  A request that makes no call leaves the
    world as it was. *)
Theorem engine_call_of_a_request (e : env) :
  (forall (w : world KakoraServerLock.pool) r w',
      serve (KakoraServerLock.text_to_speech e) w = (r, w') ->
      w' = w \/
      exists d s a p,
        request_json w = JsonValue (JDict d) /\
        lookup (lit "text") d = Some (JStr s) /\
        accent_of d = JStr a /\ lookup a (globals w) = Some p /\
        engine_log w'
          = mkCall p (JStr s) (voice_of d) (speed_of d) :: engine_log w) /\
  (forall (w : world KakoraServerLock.pool) r w',
      serve (KakoraServerLock.text_to_speech_base64 e) w = (r, w') ->
      w' = w \/
      exists d s a p,
        request_json w = JsonValue (JDict d) /\
        lookup (lit "text") d = Some (JStr s) /\
        accent_of d = JStr a /\ lookup a (globals w) = Some p /\
        engine_log w'
          = mkCall p (JStr s) (voice_of d) (speed_of d) :: engine_log w) /\
  (forall (w : world App.slot) r w',
      serve (App.text_to_speech e) w = (r, w') ->
      w' = w \/
      exists d s p,
        globals w = Some p /\
        request_json w = JsonValue (JDict d) /\
        lookup (lit "text") d = Some (JStr s) /\
        engine_log w'
          = mkCall p (JStr s) (JStr (lit "af_heart")) (speed_of d)
              :: engine_log w).
Proof.
  split; [|split]; intros w r w' Hrun.
  - apply ksl_tts_cases in Hrun
      as [[-> _]|(d & s & a & p & Hbody & Htext & _ & _ & Ha & Hp & Hafter)];
      [now left|].
    right. exists d, s, a, p.
    apply after_engine_file in Hafter as (Hcall & _). now repeat split.
  - apply ksl_b64_cases in Hrun
      as [[-> _]|(d & s & a & p & Hbody & Htext & _ & Ha & Hp & Hafter)];
      [now left|].
    right. exists d, s, a, p.
    apply after_engine_base64 in Hafter as (-> & _). now repeat split.
  - apply app_tts_cases in Hrun
      as [[-> _]|(d & s & p & n & Hg & Hbody & Htext & _ & _ & _ & _
                  & Hafter)];
      [now left|].
    right. exists d, s, p.
    apply after_engine_file in Hafter as (Hcall & _). now repeat split.
Qed.

Lemma engine_call_of_a_request_witness :
  serve (KakoraServerLock.text_to_speech sample_env)
    (british_only two_chunk_engine (body_of_text (lit "  Hello  ")))
  = (wav_attachment sample_env (Fmt (JStr (lit "british"))),
     snd (serve (KakoraServerLock.text_to_speech sample_env)
            (british_only two_chunk_engine (body_of_text (lit "  Hello  ")))))
  /\
  (snd (serve (KakoraServerLock.text_to_speech sample_env)
          (british_only two_chunk_engine (body_of_text (lit "  Hello  "))))
   = british_only two_chunk_engine (body_of_text (lit "  Hello  ")) \/
   exists d s a p,
     request_json
       (british_only two_chunk_engine (body_of_text (lit "  Hello  ")))
       = JsonValue (JDict d) /\
     lookup (lit "text") d = Some (JStr s) /\
     accent_of d = JStr a /\
     lookup a (globals (british_only two_chunk_engine
                          (body_of_text (lit "  Hello  ")))) = Some p /\
     engine_log
       (snd (serve (KakoraServerLock.text_to_speech sample_env)
               (british_only two_chunk_engine
                  (body_of_text (lit "  Hello  ")))))
       = mkCall p (JStr s) (voice_of d) (speed_of d)
           :: engine_log (british_only two_chunk_engine
                            (body_of_text (lit "  Hello  ")))).
Proof.
  split; [reflexivity|].
  apply (proj1 (engine_call_of_a_request sample_env)
           (british_only two_chunk_engine (body_of_text (lit "  Hello  ")))
           (wav_attachment sample_env (Fmt (JStr (lit "british")))) _).
  reflexivity.
Defined.

Lemma download_text_accent (e : env) (a : pystr) :
  download_text (wav_attachment e (Fmt (JStr a)))
  = Some (lit "kokoro_" ++ a ++ lit "_" ++ firstn 8 (uuid_hex e)
          ++ lit ".wav").
Proof.
  unfold download_text, wav_attachment, uuid8.
  cbn [content render render_piece]. now rewrite app_nil_r.
Qed.

Lemma download_text_voice (e : env) :
  download_text (wav_attachment e (Lit App.VOICE))
  = Some (lit "kokoro_af_heart_" ++ firstn 8 (uuid_hex e) ++ lit ".wav").
Proof.
  unfold download_text, wav_attachment, uuid8.
  cbn [content render render_piece]. now rewrite app_nil_r.
Qed.

(** X12. The name under which the audio is offered.  Multi-voice: a
    request answered with a file had an accent that is a key of the pool,
    and the download name is [kokoro_<accent>_<id>.wav], the id being the
    first eight characters of the random hexadecimal identifier.  Single
    voice: the name is [kokoro_af_heart_<id>.wav]. *)
Theorem download_name_of_a_success (e : env) :
  (forall w : world KakoraServerLock.pool,
      status (fst (serve (KakoraServerLock.text_to_speech e) w)) = 200 ->
      exists d a,
        request_json w = JsonValue (JDict d) /\
        accent_of d = JStr a /\
        In a (keys (globals w)) /\
        download_text (fst (serve (KakoraServerLock.text_to_speech e) w))
          = Some (lit "kokoro_" ++ a ++ lit "_" ++ firstn 8 (uuid_hex e)
                  ++ lit ".wav")) /\
  (forall w : world App.slot,
      status (fst (serve (App.text_to_speech e) w)) = 200 ->
      download_text (fst (serve (App.text_to_speech e) w))
        = Some (lit "kokoro_af_heart_" ++ firstn 8 (uuid_hex e)
                ++ lit ".wav")).
Proof.
  split; intros w Hok.
  - destruct (serve _ w) as [r w'] eqn:Hrun. simpl in *.
    apply ksl_tts_cases in Hrun
      as [[_ [H|H]]|(d & s & a & p & Hbody & _ & _ & _ & Ha & Hp & Hafter)];
      try (rewrite H in Hok; discriminate).
    apply after_engine_file in Hafter
      as (_ & _ & _ & _ & [[H _]|(segs & _ & _ & -> & _)]);
      [rewrite H in Hok; discriminate|].
    exists d, a. split; [exact Hbody|]. split; [exact Ha|].
    split; [now apply lookup_some_in in Hp | apply download_text_accent].
  - destruct (serve _ w) as [r w'] eqn:Hrun. simpl in *.
    apply app_tts_cases in Hrun
      as [[_ [H|H]]|(d & s & p & n & _ & _ & _ & _ & _ & _ & _ & Hafter)];
      try (rewrite H in Hok; discriminate).
    apply after_engine_file in Hafter
      as (_ & _ & _ & _ & [[H _]|(segs & _ & _ & -> & _)]);
      [rewrite H in Hok; discriminate|].
    apply download_text_voice.
Qed.

Lemma download_name_of_a_success_witness :
  status (fst (serve (App.text_to_speech sample_env)
                 (single_voice two_chunk_engine body_hello))) = 200 /\
  download_text (fst (serve (App.text_to_speech sample_env)
                        (single_voice two_chunk_engine body_hello)))
    = Some (lit "kokoro_af_heart_9f86d081.wav").
Proof.
  split; [reflexivity|].
  rewrite (proj2 (download_name_of_a_success sample_env)
             (single_voice two_chunk_engine body_hello) eq_refl).
  reflexivity.
Defined.

(* ================================================================== *)
(** * Fields of the wrong type *)
(* ================================================================== *)

(** X13. An accent that is not a string.  A list or an object cannot be
    looked up in the pool: status 500.  [null], a truth value or a number
    is looked up and is never a key: status 400, also when the British
    engine is loaded; an accent given as [null] is not replaced by the
    default.  For requests that passed the rules before, on [/tts] and
    [/tts_base64]. *)
Theorem accent_of_wrong_type
    (e : env) (w : world KakoraServerLock.pool)
    (d : list (pystr * json)) (s : pystr) :
  request_json w = JsonValue (JDict d) ->
  lookup (lit "text") d = Some (JStr s) ->
  strip s <> [] ->
  (is_container (accent_of d) = true ->
   (Z.of_nat (length s) <= 5000 ->
    serve (KakoraServerLock.text_to_speech e) w
      = (error_response [StrExn (TypeError (accent_of d) "hash")] 500, w))
   /\
   serve (KakoraServerLock.text_to_speech_base64 e) w
     = (error_response [StrExn (TypeError (accent_of d) "hash")] 500, w))
  /\
  (is_scalar_not_string (accent_of d) = true ->
   (Z.of_nat (length s) <= 5000 ->
    serve (KakoraServerLock.text_to_speech e) w
      = (UnknownAccentListing (accent_of d) (keys (globals w)), w)) /\
   status (fst (serve (KakoraServerLock.text_to_speech_base64 e) w)) = 400
   /\
   snd (serve (KakoraServerLock.text_to_speech_base64 e) w) = w).
Proof.
  intros Hbody Htext Hs%not_blank_test.
  pose proof (has_text_not_empty _ _ _ Htext) as Hd.
  destruct w as [g rj fs lg]. simpl in Hbody. subst rj.
  unfold accent_of. split; intros Hkind.
  - split.
    + intros Hl%length_test. unfold KakoraServerLock.text_to_speech. follow.
      destruct (dict_get d (lit "accent") _); try discriminate Hkind;
        reflexivity.
    + unfold KakoraServerLock.text_to_speech_base64. follow.
      destruct (dict_get d (lit "accent") _); try discriminate Hkind;
        reflexivity.
  - split; [|split].
    + intros Hl%length_test. unfold KakoraServerLock.text_to_speech. follow.
      destruct (dict_get d (lit "accent") _); try discriminate Hkind;
        reflexivity.
    + unfold KakoraServerLock.text_to_speech_base64. follow.
      destruct (dict_get d (lit "accent") _); try discriminate Hkind;
        reflexivity.
    + unfold KakoraServerLock.text_to_speech_base64. follow.
      destruct (dict_get d (lit "accent") _); try discriminate Hkind;
        reflexivity.
Qed.

Lemma accent_of_wrong_type_witness :
  request_json (british_only two_chunk_engine
                  (JDict [(lit "text", hello); (lit "accent", JNull)]))
    = JsonValue (JDict [(lit "text", hello); (lit "accent", JNull)]) /\
  lookup (lit "text") [(lit "text", hello); (lit "accent", JNull)]
    = Some (JStr (lit "Hello world")) /\
  strip (lit "Hello world") <> [] /\
  is_scalar_not_string
    (accent_of [(lit "text", hello); (lit "accent", JNull)]) = true /\
  Z.of_nat (length (lit "Hello world")) <= 5000 /\
  serve (KakoraServerLock.text_to_speech sample_env)
    (british_only two_chunk_engine
       (JDict [(lit "text", hello); (lit "accent", JNull)]))
    = (UnknownAccentListing JNull [lit "british"],
       british_only two_chunk_engine
         (JDict [(lit "text", hello); (lit "accent", JNull)])).
Proof.
  assert (Hsaid : strip (lit "Hello world") <> [])
    by (vm_compute; discriminate).
  assert (Hlen : Z.of_nat (length (lit "Hello world")) <= 5000)
    by (vm_compute; discriminate).
  repeat (split; [first [reflexivity | assumption]|]).
  apply (proj1 (proj2 (accent_of_wrong_type sample_env
                         (british_only two_chunk_engine
                            (JDict [(lit "text", hello);
                                    (lit "accent", JNull)]))
                         [(lit "text", hello); (lit "accent", JNull)]
                         (lit "Hello world") eq_refl eq_refl Hsaid)
                  eq_refl)).
  exact Hlen.
Defined.

(** X14. A speed that is no number in range, on the single-voice [/tts],
    for requests that passed the rules before.  A speed that is neither a
    number nor a truth value (a string, [null], a list, an object) cannot
    be compared: status 500.  [NaN] is neither below 0.5 nor above 2.0
    and goes to the engine.  [true] counts as 1 and is accepted, [false]
    counts as 0 and is rejected with the speed error. *)
Theorem speed_of_wrong_type
    (e : env) (w : world App.slot) (p : Engine)
    (d : list (pystr * json)) (s : pystr) :
  globals w = Some p ->
  request_json w = JsonValue (JDict d) ->
  lookup (lit "text") d = Some (JStr s) ->
  strip s <> [] ->
  Z.of_nat (length s) <= 5000 ->
  (as_number (speed_of d) = None ->
   serve (App.text_to_speech e) w
     = (error_response [StrExn (TypeError (speed_of d) "<")] 500, w)) /\
  (speed_of d = JNum NaN \/ speed_of d = JBool true ->
   engine_log (snd (serve (App.text_to_speech e) w))
     = mkCall p (JStr s) (JStr (lit "af_heart")) (speed_of d)
         :: engine_log w) /\
  (speed_of d = JBool false ->
   serve (App.text_to_speech e) w = (SpeedOutOfRange, w)).
Proof.
  intros Hready Hbody Htext Hsaid Hlen. split; [|split].
  - intros Hnone.
    pose proof (has_text_not_empty _ _ _ Htext) as Hd.
    pose proof (not_blank_test _ Hsaid) as Hs.
    pose proof (length_test _ Hlen) as Hl.
    destruct w as [g rj fs lg]. simpl in Hbody, Hready. subst rj g.
    unfold speed_of in *. unfold App.text_to_speech. follow. reflexivity.
  - intros Hv.
    assert (Hn : exists n, as_number (speed_of d) = Some n /\
                           out_of_range n = false).
    { destruct Hv as [-> | ->]; eexists; split; reflexivity. }
    destruct Hn as (n & Hn & Hr).
    pose proof (app_tts_accepted e w p Hready d Hbody s Htext Hsaid Hlen
                  n Hn Hr) as Hafter.
    now apply after_engine_file in Hafter as (Hcall & _).
  - intros Hv.
    apply (app_tts_speed_rejected e w p Hready d Hbody s Htext Hsaid Hlen
             (Fin 0)); [now rewrite Hv | reflexivity].
Qed.

Lemma speed_of_wrong_type_witness :
  globals (single_voice two_chunk_engine
             (JDict [(lit "text", hello); (lit "speed", JStr (lit "1.5"))]))
    = Some two_chunk_engine /\
  lookup (lit "text")
    [(lit "text", hello); (lit "speed", JStr (lit "1.5"))]
    = Some (JStr (lit "Hello world")) /\
  strip (lit "Hello world") <> [] /\
  Z.of_nat (length (lit "Hello world")) <= 5000 /\
  as_number (speed_of [(lit "text", hello);
                       (lit "speed", JStr (lit "1.5"))]) = None /\
  status (fst (serve (App.text_to_speech sample_env)
                 (single_voice two_chunk_engine
                    (JDict [(lit "text", hello);
                            (lit "speed", JStr (lit "1.5"))])))) = 500.
Proof.
  assert (Hsaid : strip (lit "Hello world") <> [])
    by (vm_compute; discriminate).
  assert (Hlen : Z.of_nat (length (lit "Hello world")) <= 5000)
    by (vm_compute; discriminate).
  repeat (split; [first [reflexivity | assumption]|]).
  rewrite (proj1 (speed_of_wrong_type sample_env
                    (single_voice two_chunk_engine
                       (JDict [(lit "text", hello);
                               (lit "speed", JStr (lit "1.5"))]))
                    two_chunk_engine
                    [(lit "text", hello); (lit "speed", JStr (lit "1.5"))]
                    (lit "Hello world") eq_refl eq_refl eq_refl Hsaid Hlen)
             eq_refl).
  reflexivity.
Defined.

(* ================================================================== *)
(** * One request after the other *)
(* ================================================================== *)

(** What one request does to the pool, the temporary directory and the
    record of engine calls. *)
Lemma serve_request_effects (q : request) (w : world KakoraServerLock.pool) :
  globals (snd (serve_request q w)) = globals w /\
  ((is_download q (fst (serve_request q w)) = false /\
    (files (snd (serve_request q w)) = files w \/
     (is_tts q = true /\
      exists holds,
        files (snd (serve_request q w))
          = (tmp_name (req_env q), holds) :: files w)) /\
    (disk_works q -> files (snd (serve_request q w)) = files w)) \/
   (is_download q (fst (serve_request q w)) = true /\
    is_tts q = true /\
    exists b,
      files (snd (serve_request q w))
        = (tmp_name (req_env q), Some b) :: files w)) /\
  (engine_log (snd (serve_request q w)) = engine_log w \/
   exists c, engine_log (snd (serve_request q w)) = c :: engine_log w).
Proof.
  destruct q as [route e body].
  unfold serve_request, is_download, is_tts, disk_works.
  cbn [req_route req_env req_body].
  destruct route; cbn [dispatch].
  1-3: (split; [reflexivity|];
        split; [left; repeat split; now left | left; reflexivity]).
  - destruct (serve _ _) as [r w'] eqn:Hrun. cbn [fst snd].
    apply ksl_tts_cases in Hrun
      as [[-> Hst]|(d & s & a & p & _ & _ & _ & _ & _ & _ & Hafter)].
    + repeat split; [left|now left]. repeat split; [|now left].
      apply Z.eqb_neq. intros H. rewrite H in Hst. now destruct Hst.
    + pose proof (after_engine_file _ _ _ _ _ _ Hafter)
        as (Hcall & Hpool & _).
      apply after_engine_file_exact in Hafter.
      split; [exact Hpool|]. split; [|right; eauto].
      destruct (run _ _ _ _) as [[|x segs]|ex0].
      * destruct Hafter as [H500 Hfiles]. left.
        repeat split; [now rewrite H500 | now left | now intros _].
      * destruct (tmp_error e) as [ex1|], (write_error e) as [ex2|],
          (send_error e) as [ex3|]; destruct Hafter as [-> Hfiles];
          try (left; repeat split;
               [ first [ now left | right; split; [reflexivity|]; eauto ]
               | first [ intros _; exact Hfiles
                       | intros [? ?]; discriminate ] ]).
        right. repeat split. eauto.
      * destruct Hafter as [H500 Hfiles]. left.
        repeat split; [now rewrite H500 | now left | now intros _].
  - destruct (serve _ _) as [r w'] eqn:Hrun. cbn [fst snd].
    apply british_tts_cases in Hrun as (_ & Hpool & Hfiles & Hlog).
    repeat split; [exact Hpool | left; repeat split; auto | now left].
  - destruct (serve _ _) as [r w'] eqn:Hrun. cbn [fst snd].
    apply ksl_b64_cases in Hrun
      as [[-> _]|(d & s & a & p & _ & _ & _ & _ & _ & Hafter)].
    + repeat split; [left; repeat split; now left | now left].
    + apply after_engine_base64 in Hafter as (-> & _).
      repeat split;
        [left; repeat split; now left | right; eexists; reflexivity].
Qed.

Lemma serve_all_cons q qs (w : world KakoraServerLock.pool) :
  serve_all (q :: qs) w
  = (fst (serve_request q w) :: fst (serve_all qs (snd (serve_request q w))),
     snd (serve_all qs (snd (serve_request q w)))).
Proof.
  simpl. destruct (serve_request q w) as [r w1]. simpl.
  now destruct (serve_all qs w1).
Qed.

Lemma serve_all_pool qs (w : world KakoraServerLock.pool) :
  globals (snd (serve_all qs w)) = globals w.
Proof.
  revert w. induction qs as [|q qs IH]; intros w; [reflexivity|].
  rewrite serve_all_cons. cbn [snd]. rewrite IH.
  apply serve_request_effects.
Qed.

(** X15. The pool start-up leaves is the pool of every later request:
    after [initialize_pipelines] on the empty pool and any sequence of
    requests to the six routes, whatever their bodies, the pool still
    holds exactly the accents that loaded, with the same engines; and one
    response is given per request. *)
Theorem pool_survives_every_request_sequence
    (KPipeline : KakoraServerLock.loader) (qs : list request)
    (w : world KakoraServerLock.pool) :
  globals w = [] ->
  globals (snd (serve_all qs
                  (snd (KakoraServerLock.initialize_pipelines KPipeline w))))
    = loaded_accents KPipeline /\
  length (fst (serve_all qs
                 (snd (KakoraServerLock.initialize_pipelines KPipeline w))))
    = length qs.
Proof.
  intros Hg. split.
  - rewrite serve_all_pool.
    now rewrite (initialize_pipelines_run KPipeline w Hg).
  - generalize (snd (KakoraServerLock.initialize_pipelines KPipeline w)).
    induction qs as [|q qs IH]; intros v; [reflexivity|].
    rewrite serve_all_cons. cbn [fst length]. now rewrite IH.
Qed.

Lemma pool_survives_every_request_sequence_witness :
  globals startup = [] /\
  globals (snd (serve_all
                  [ mkRequest Tts sample_env (JsonValue body_hello);
                    mkRequest TtsBritish sample_env (JsonValue body_klingon);
                    mkRequest Accents sample_env (JsonValue JNull);
                    mkRequest TtsBase64 sample_env (JsonValue body_hello) ]
                  (snd (KakoraServerLock.initialize_pipelines british_loads
                          startup))))
    = [(lit "british", two_chunk_engine)].
Proof.
  split; [reflexivity|].
  apply (proj1 (pool_survives_every_request_sequence british_loads
                  [ mkRequest Tts sample_env (JsonValue body_hello);
                    mkRequest TtsBritish sample_env (JsonValue body_klingon);
                    mkRequest Accents sample_env (JsonValue JNull);
                    mkRequest TtsBase64 sample_env (JsonValue body_hello) ]
                  startup eq_refl)).
Defined.




